(** * AYE programme management: the local data store of [script.js]

    A shallow embedding of the record-keeping core of [script.js]: the
    [localStorage] wrapper, the three entity collections with their cached
    mirror in [systemData], id generation, the create and delete operations,
    the success-rate and budget-utilisation computations and the CSV
    serialisation, followed by the properties stated about them.

    Conventions of the embedding.
    - A JavaScript number is a binary64 value, here a primitive [float];
      arithmetic and comparisons are the IEEE operations of [PrimFloat].
    - A JavaScript string is a [string] whose characters are read as the
      UTF-16 code units U+0000 to U+00FF.
    - [JSON.parse (JSON.stringify v)] is modelled by the normalisation it
      performs on the records of this program ([json_num] and the [json_*]
      functions): the text in between is not represented.
    - [localStorage] always accepts a write; the four keys of the program
      are four typed slots, absent until first written.
    - The clock ([new Date().toISOString()]), the answer to [confirm] and
      the submitted form are inputs of the operation that reads them. *)

From Stdlib Require Import ZArith NArith List String Ascii Bool Lia.
From Stdlib Require Import Floats DecimalString.
Import ListNotations.

(* ================================================================== *)
(** * String primitives of the host language *)
(* ================================================================== *)

Module JsString.

Local Open Scope string_scope.

(** The double-quote character, U+0022. *)
Definition dquote : ascii := ascii_of_nat 34.

(** WhiteSpace and LineTerminator code units below U+0100: TAB, LF, VT, FF,
    CR, SP and NBSP.  This is the set stripped by [trim] and matched by the
    regular-expression class [\s]. *)
Definition isWhiteSpace (c : ascii) : bool :=
  let n := N_of_ascii c in
  (((9 <=? n) && (n <=? 13)) || (n =? 32) || (n =? 160))%N.

Definition isDigit (c : ascii) : bool :=
  let n := N_of_ascii c in ((48 <=? n) && (n <=? 57))%N.

Fixpoint trimStart (s : string) : string :=
  match s with
  | EmptyString => EmptyString
  | String c s' => if isWhiteSpace c then trimStart s' else s
  end.

Fixpoint trimEnd (s : string) : string :=
  match s with
  | EmptyString => EmptyString
  | String c s' =>
      match trimEnd s' with
      | EmptyString => if isWhiteSpace c then EmptyString else String c EmptyString
      | t => String c t
      end
  end.

(** [String.prototype.trim]. *)
Definition trim (s : string) : string := trimEnd (trimStart s).

(** [String.prototype.toLowerCase] on U+0000..U+00FF: A-Z and the Latin-1
    capitals U+00C0..U+00DE other than the multiplication sign U+00D7. *)
Definition toLowerChar (c : ascii) : ascii :=
  let n := N_of_ascii c in
  if (((65 <=? n) && (n <=? 90))
      || ((192 <=? n) && (n <=? 222) && negb (n =? 215)))%N
  then ascii_of_N (n + 32) else c.

Fixpoint toLowerCase (s : string) : string :=
  match s with
  | EmptyString => EmptyString
  | String c s' => String (toLowerChar c) (toLowerCase s')
  end.

Fixpoint drop (n : nat) (s : string) : string :=
  match n, s with
  | O, _ => s
  | S n', String _ s' => drop n' s'
  | S _, EmptyString => EmptyString
  end.

(** [String.prototype.includes] with a string argument. *)
Fixpoint includes (s pat : string) : bool :=
  if prefix pat s then true
  else match s with
       | EmptyString => false
       | String _ s' => includes s' pat
       end.

(** [String.prototype.replace (pat, rep)] with a string pattern: only the
    first occurrence is replaced.  (No [$] pattern occurs in the
    replacement strings the program uses.) *)
Fixpoint replace (pat rep s : string) : string :=
  if prefix pat s then rep ++ drop (length pat) s
  else match s with
       | EmptyString => EmptyString
       | String c s' => String c (replace pat rep s')
       end.

(** The global replacement [value.replace] applies in [downloadCSV]: every
    double-quote character is written twice. *)
Fixpoint doubleQuotes (s : string) : string :=
  match s with
  | EmptyString => EmptyString
  | String c s' =>
      if Ascii.eqb c dquote then String dquote (String dquote (doubleQuotes s'))
      else String c (doubleQuotes s')
  end.

(** The first [n] characters of [fill] repeated for ever, [cur] being what
    is left of the current copy. *)
Fixpoint fillTo (n : nat) (fill cur : string) : string :=
  match n with
  | O => EmptyString
  | S n' =>
      match cur with
      | String c cur' => String c (fillTo n' fill cur')
      | EmptyString =>
          match fill with
          | String c fill' => String c (fillTo n' fill fill')
          | EmptyString => EmptyString
          end
      end
  end.

(** [String.prototype.padStart (targetLength, fill)]. *)
Definition padStart (targetLength : nat) (fill s : string) : string :=
  if Nat.leb targetLength (length s) then s
  else fillTo (targetLength - length s) fill fill ++ s.

(** [Array.prototype.join] on an array of strings. *)
Fixpoint join (sep : string) (l : list string) : string :=
  match l with
  | [] => EmptyString
  | [x] => x
  | x :: rest => x ++ sep ++ join sep rest
  end.

(** [s.split(c)[0]]: the part of [s] before the first [c]. *)
Fixpoint beforeFirst (c : ascii) (s : string) : string :=
  match s with
  | EmptyString => EmptyString
  | String d s' => if Ascii.eqb d c then EmptyString else String d (beforeFirst c s')
  end.

Fixpoint forallb (p : ascii -> bool) (s : string) : bool :=
  match s with
  | EmptyString => true
  | String c s' => p c && forallb p s'
  end.

(** JavaScript truthiness of a string: every string but the empty one. *)
Definition truthy (s : string) : bool :=
  match s with EmptyString => false | _ => true end.

End JsString.

(* ================================================================== *)
(** * Numbers of the host language *)
(* ================================================================== *)

Module JsNumber.

Import JsString.
Local Open Scope string_scope.
Local Open Scope Z_scope.

(** ** Conversions between exact values and binary64 *)

(** The binary64 value nearest to the rational [p / q] (ties to even), with
    the sign [neg].  The quotient is taken with at least 64 significant bits
    and one further sticky bit recording a non-zero remainder, so that the
    final rounding of [binary_normalize] sees on which side of every
    53-bit midpoint the exact quotient lies. *)
Definition roundQ (neg : bool) (p : Z) (q : positive) : spec_float :=
  match p with
  | Zpos pp =>
      let k := Z.max 0 (Zpos (digits2_pos q) + 64 - Zpos (digits2_pos pp)) in
      let (m, r) := Z.div_eucl (Z.shiftl p k) (Zpos q) in
      let m' := 2 * m + (if r =? 0 then 0 else 1) in
      binary_normalize prec emax (if neg then - m' else m') (- k - 1) false
  | _ => S754_zero neg
  end.

Definition Q2F (neg : bool) (p : Z) (q : positive) : float :=
  SF2Prim (roundQ neg p q).

(** The Number value of a mathematical integer. *)
Definition Z2F (z : Z) : float := Q2F (z <? 0) (Z.abs z) 1.

(** The exact value [m * 2 ^ e] of a finite number; [None] for NaN and the
    infinities. *)
Definition F2ME (x : float) : option (Z * Z) :=
  match Prim2SF x with
  | S754_zero _ => Some (0, 0)
  | S754_finite s m e => Some (if s then Zneg m else Zpos m, e)
  | _ => None
  end.

(** ** Truthiness and coercions *)

(** [ToBoolean] on a number: false exactly for +0, -0 and NaN. *)
Definition truthy (x : float) : bool := negb (is_zero x || is_nan x).

(** [a > b] on numbers. *)
Definition gt (a b : float) : bool := PrimFloat.ltb b a.

(** [a >= b] on numbers. *)
Definition ge (a b : float) : bool := PrimFloat.leb b a.

(** ** [Math.round] *)

(** The integer nearest to [x], ties towards +Infinity; NaN, the infinities
    and the zeros are returned as they are, and a result that rounds to zero
    from below is -0. *)
Definition Math_round (x : float) : float :=
  match Prim2SF x with
  | S754_finite s m e =>
      if 0 <=? e then x
      else
        let v := if s then Zneg m else Zpos m in
        let r := (2 * v + 2 ^ (- e)) / 2 ^ (1 - e) in
        if r =? 0 then (if s then neg_zero else zero) else Z2F r
  | _ => x
  end.

(** ** Decimal numerals *)

(** The decimal digits of a natural integer, without leading zeros. *)
Definition decimal (z : Z) : string :=
  NilZero.string_of_uint (N.to_uint (Z.to_N z)).

Definition digitValue (c : ascii) : Z :=
  let n := Z.of_N (N_of_ascii c) in
  if (48 <=? n) && (n <=? 57) then n - 48
  else if (97 <=? n) && (n <=? 122) then n - 87
  else if (65 <=? n) && (n <=? 90) then n - 55
  else 36.

Definition isRadixDigit (R : Z) (c : ascii) : bool := digitValue c <? R.

(** The longest prefix of [s] made of radix-[R] digits, and what follows. *)
Fixpoint spanDigits (R : Z) (s : string) : string * string :=
  match s with
  | EmptyString => (EmptyString, EmptyString)
  | String c s' =>
      if isRadixDigit R c
      then let (d, rest) := spanDigits R s' in (String c d, rest)
      else (EmptyString, s)
  end.

(** The integer a digit string denotes in radix [R], most significant digit
    first. *)
Fixpoint digitsValueFrom (R : Z) (acc : Z) (s : string) : Z :=
  match s with
  | EmptyString => acc
  | String c s' => digitsValueFrom R (R * acc + digitValue c) s'
  end.

Definition digitsValue (R : Z) (s : string) : Z := digitsValueFrom R 0 s.

(** Splits an optional leading sign off: (is it a minus, the rest). *)
Definition splitSign (s : string) : bool * string :=
  match s with
  | String c s' =>
      if Ascii.eqb c "-"%char then (true, s')
      else if Ascii.eqb c "+"%char then (false, s')
      else (false, s)
  | EmptyString => (false, s)
  end.

(** ** [parseInt (string)], radix left undefined *)

(** Leading white space is skipped, a sign is read, a [0x] or [0X] prefix
    selects radix 16 and anything else radix 10; the longest run of digits
    is converted, and an empty run gives NaN.  A zero keeps the sign. *)
Definition parseInt (str : string) : float :=
  let (neg, s1) := splitSign (trimStart str) in
  let (R, s2) :=
    if prefix "0x" s1 || prefix "0X" s1 then (16, drop 2 s1) else (10, s1) in
  let (ds, _) := spanDigits R s2 in
  match ds with
  | EmptyString => nan
  | _ => Q2F neg (digitsValue R ds) 1
  end.

(** ** [parseFloat (string)] *)

(** The exponent part [e], [e+] or [e-] followed by at least one digit;
    [None] when what follows is no exponent part, which then stays
    unread. *)
Definition readExponent (s : string) : option Z :=
  match s with
  | String c s' =>
      if Ascii.eqb c "e"%char || Ascii.eqb c "E"%char then
        let (neg, s2) := splitSign s' in
        let (ds, _) := spanDigits 10 s2 in
        match ds with
        | EmptyString => None
        | _ => Some (if neg then - digitsValue 10 ds else digitsValue 10 ds)
        end
      else None
  | EmptyString => None
  end.

(** The value [M * 10 ^ E] as a Number. *)
Definition decimalToNumber (neg : bool) (M E : Z) : float :=
  if 0 <=? E then Q2F neg (M * 10 ^ E) 1
  else Q2F neg M (Z.to_pos (10 ^ (- E))).

(** The longest prefix of the trimmed string that is a StrDecimalLiteral:
    a sign, then [Infinity], or digits with an optional fraction and
    exponent, or a fraction starting with the point.  No such prefix gives
    NaN. *)
Definition parseFloat (str : string) : float :=
  let (neg, s1) := splitSign (trimStart str) in
  if prefix "Infinity" s1 then (if neg then neg_infinity else infinity)
  else
    let (ip, s2) := spanDigits 10 s1 in
    let (fp, s3) :=
      match s2 with
      | String c s2' =>
          if Ascii.eqb c "."%char then spanDigits 10 s2' else (EmptyString, s2)
      | EmptyString => (EmptyString, s2)
      end in
    match ip, fp with
    | EmptyString, EmptyString => nan
    | _, _ =>
        let ex := match readExponent s3 with Some e => e | None => 0 end in
        decimalToNumber neg (digitsValue 10 (ip ++ fp))
                        (ex - Z.of_nat (length fp))
    end.

(** ** [Number::toString], radix 10 *)

(** The position [n] of the decimal point of the positive rational
    [num / den]: the integer with [10 ^ (n - 1) <= num / den < 10 ^ n],
    searched upwards from [n]. *)
Fixpoint pointPosition (fuel : nat) (num den : Z) (n : Z) : Z :=
  match fuel with
  | O => n
  | S fuel' =>
      if (if 0 <=? n then num <? den * 10 ^ n else num * 10 ^ (- n) <? den)
      then n
      else pointPosition fuel' num den (n + 1)
  end.

(** The rational [s * 10 ^ j] as a Number. *)
Definition scaledToNumber (s j : Z) : float := decimalToNumber false s j.

(** For a digit count [k]: the [k]-digit integers [s] just below and just
    above [x / 10 ^ (n - k)] for which [s * 10 ^ (n - k)] reads back as
    [x], the nearer one first (the even one on a tie). *)
Definition digitCandidates (x : float) (num den n k : Z) : list Z :=
  let j := n - k in
  let a := if 0 <=? j then num else num * 10 ^ (- j) in
  let b := if 0 <=? j then den * 10 ^ j else den in
  let lo := a / b in
  let r := a mod b in
  if r =? 0 then [lo]
  else
    let ordered :=
      if 2 * r <? b then [lo; lo + 1]
      else if b <? 2 * r then [lo + 1; lo]
      else if Z.even lo then [lo; lo + 1] else [lo + 1; lo] in
    filter (fun s => (0 <? s) && PrimFloat.eqb (scaledToNumber s j) x) ordered.

(** The least [k] with a candidate, and that candidate: the digits [s] and
    the point position [n] of the shortest decimal that reads back as
    [x]. *)
Fixpoint shortestDigits (fuel : nat) (x : float) (num den n k : Z) : Z * Z :=
  match fuel with
  | O => (0, n)
  | S fuel' =>
      match digitCandidates x num den n k with
      | s :: _ => if s =? 10 ^ k then (10 ^ (k - 1), n + 1) else (s, n)
      | [] => shortestDigits fuel' x num den n (k + 1)
      end
  end.

Fixpoint zeros (n : nat) : string :=
  match n with O => EmptyString | S n' => String "0"%char (zeros n') end.

Fixpoint take (n : nat) (s : string) : string :=
  match n, s with
  | S n', String c s' => String c (take n' s')
  | _, _ => EmptyString
  end.

(** The text of a positive finite number from its digits [ds] (there are
    [k] of them) and point position [n]: plain digits up to 21 integer
    digits, a leading [0.] down to six zeros after the point, the exponent
    form beyond. *)
Definition formatDigits (ds : string) (k n : Z) : string :=
  if (k <=? n) && (n <=? 21) then ds ++ zeros (Z.to_nat (n - k))
  else if (0 <? n) && (n <=? 21) then
    take (Z.to_nat n) ds ++ "." ++ drop (Z.to_nat n) ds
  else if (-6 <? n) && (n <=? 0) then
    "0." ++ zeros (Z.to_nat (- n)) ++ ds
  else
    let e := n - 1 in
    let es := (if e <? 0 then "-" else "+") ++ decimal (Z.abs e) in
    if k =? 1 then ds ++ "e" ++ es
    else take 1 ds ++ "." ++ drop 1 ds ++ "e" ++ es.

(** The text of the positive finite [x = num / den] by the search for its
    shortest digits. *)
Definition shortestToString (x : float) (num den : Z) : string :=
  let n := pointPosition 700 num den (-330) in
  let (s, n') := shortestDigits 17 x num den n 1 in
  let ds := decimal s in
  formatDigits ds (Z.of_nat (length ds)) n'.

(** The text of the positive finite [x = m * 2 ^ e].  An integer below
    [2 ^ 53] is the only integer that reads back as its Number value, so
    its text is its own decimal digits; every other value goes through the
    search. *)
Definition positiveToString (x : float) (m e : Z) : string :=
  let num := if 0 <=? e then m * 2 ^ e else m in
  let den := if 0 <=? e then 1 else 2 ^ (- e) in
  if (num mod den =? 0) && (num / den <? 2 ^ 53) then decimal (num / den)
  else shortestToString x num den.

(** [String (x)] and the conversion string concatenation and [join] apply
    to a number. *)
Definition Number_toString (x : float) : string :=
  match Prim2SF x with
  | S754_nan => "NaN"
  | S754_zero _ => "0"
  | S754_infinity s => if s then "-Infinity" else "Infinity"
  | S754_finite s m e =>
      if s then "-" ++ positiveToString (PrimFloat.abs x) (Zpos m) e
      else positiveToString x (Zpos m) e
  end.

(** ** [Number.prototype.toFixed (2)] *)

(** The digits of [n] with a point before the last two, padded with zeros
    so that one digit at least stands before the point. *)
Definition twoDecimals (n : Z) : string :=
  let m := padStart 3 "0" (decimal n) in
  take (length m - 2) m ++ "." ++ drop (length m - 2) m.

(** [x.toFixed (2)]: a value that is not finite, or is [10 ^ 21] or more in
    magnitude, is written as [String] writes it; any other value [x] is
    written as the integer [n] nearest to [100 * x] (the larger one on a
    tie, taken on the magnitude) with two decimals, after the sign. *)
Definition toFixed2 (x : float) : string :=
  match Prim2SF x with
  | S754_finite s m e =>
      let num := if 0 <=? e then Zpos m * 2 ^ e else Zpos m in
      let den := if 0 <=? e then 1 else 2 ^ (- e) in
      if 10 ^ 21 * den <=? num then Number_toString x
      else
        let n := (200 * num + den) / (2 * den) in
        (if s then "-" else "") ++ twoDecimals n
  | S754_zero _ => "0.00"
  | _ => Number_toString x
  end.

End JsNumber.

(* ================================================================== *)
(** * Values, records and the persisted state *)
(* ================================================================== *)

Import JsString JsNumber.
Local Open Scope string_scope.

(** The primitive values a CSV row can hold. *)
Inductive JsVal : Type :=
| VUndefined
| VNull
| VBool (b : bool)
| VNum (x : float)
| VStr (s : string).

(** [ToBoolean]. *)
Definition ToBoolean (v : JsVal) : bool :=
  match v with
  | VUndefined | VNull => false
  | VBool b => b
  | VNum x => JsNumber.truthy x
  | VStr s => JsString.truthy s
  end.

(** [ToString]. *)
Definition ToString (v : JsVal) : string :=
  match v with
  | VUndefined => "undefined"
  | VNull => "null"
  | VBool b => if b then "true" else "false"
  | VNum x => Number_toString x
  | VStr s => s
  end.

(** An object literal: its own properties in insertion order.  (The keys
    the program uses are never array indices, so this is also the order of
    [Object.keys].) *)
Definition Obj : Type := list (string * JsVal).

Definition Object_keys (o : Obj) : list string := map fst o.

(** Property read [o[k]]: [undefined] when there is no such property. *)
Fixpoint getProp (o : Obj) (k : string) : JsVal :=
  match o with
  | [] => VUndefined
  | (k', v) :: o' => if String.eqb k' k then v else getProp o' k
  end.

(** A numeric field of a stored record.  [JSON.stringify] writes [null] for
    NaN and the infinities, so what [JSON.parse] gives back for such a field
    is [Null]. *)
Inductive NumField : Type :=
| Num (x : float)
| Null.

(** [ToNumber] as arithmetic applies it to the field: [null] is +0. *)
Definition toNumber (n : NumField) : float :=
  match n with Num x => x | Null => zero end.

Definition numVal (n : NumField) : JsVal :=
  match n with Num x => VNum x | Null => VNull end.

(** A number through [JSON.stringify] and [JSON.parse]: NaN and the
    infinities come back as [null], -0 as 0 and every other number as
    itself. *)
Definition json_num (n : NumField) : NumField :=
  match n with
  | Null => Null
  | Num x =>
      if is_nan x || is_infinity x then Null
      else if is_zero x then Num zero
      else Num x
  end.

Record Participant : Type := {
  p_id : string;
  p_name : string;
  p_email : string;
  p_phone : string;
  p_programme : string;
  p_startDate : string;
  p_progress : NumField;
  p_status : string;
  p_notes : string;
  p_attendance : NumField;
  p_revenue : NumField;
  p_jobs : NumField;
  p_createdAt : string;
  p_updatedAt : option string
}.

Record BudgetItem : Type := {
  b_category : string;
  b_amount : NumField;
  b_priority : string;
  b_description : string;
  b_dateAdded : string;
  b_createdAt : string
}.

Record Expense : Type := {
  e_id : string;
  e_category : string;
  e_amount : NumField;
  e_date : string;
  e_description : string;
  e_createdAt : string
}.

Record Settings : Type := { theme : string }.

Definition json_participant (p : Participant) : Participant :=
  {| p_id := p_id p; p_name := p_name p; p_email := p_email p;
     p_phone := p_phone p; p_programme := p_programme p;
     p_startDate := p_startDate p; p_progress := json_num (p_progress p);
     p_status := p_status p; p_notes := p_notes p;
     p_attendance := json_num (p_attendance p);
     p_revenue := json_num (p_revenue p); p_jobs := json_num (p_jobs p);
     p_createdAt := p_createdAt p; p_updatedAt := p_updatedAt p |}.

Definition json_budgetItem (b : BudgetItem) : BudgetItem :=
  {| b_category := b_category b; b_amount := json_num (b_amount b);
     b_priority := b_priority b; b_description := b_description b;
     b_dateAdded := b_dateAdded b; b_createdAt := b_createdAt b |}.

Definition json_expense (e : Expense) : Expense :=
  {| e_id := e_id e; e_category := e_category e;
     e_amount := json_num (e_amount e); e_date := e_date e;
     e_description := e_description e; e_createdAt := e_createdAt e |}.

(** The global [systemData]: the in-memory mirror of the four keys. *)
Record SystemData : Type := {
  participants : list Participant;
  budgetItems : list BudgetItem;
  expenses : list Expense;
  settings : Settings
}.

(** The four keys of [localStorage] the program uses; [None] is a key that
    has no item. *)
Record LocalStorage : Type := {
  ls_participants : option (list Participant);
  ls_budgetItems : option (list BudgetItem);
  ls_expenses : option (list Expense);
  ls_settings : option Settings
}.

(** The store with none of the four keys. *)
Definition emptyStorage : LocalStorage :=
  {| ls_participants := None; ls_budgetItems := None;
     ls_expenses := None; ls_settings := None |}.

(** The state an operation runs in: the store, the mirror, and whether
    [document.body] carries the class [dark-mode]. *)
Record State : Type := {
  localStorage : LocalStorage;
  systemData : SystemData;
  darkMode : bool
}.

(** The keys, indexed by the type of what is stored under them. *)
Inductive Key : Type -> Type :=
| participantsKey : Key (list Participant)
| budgetItemsKey : Key (list BudgetItem)
| expensesKey : Key (list Expense)
| settingsKey : Key Settings.

Definition getItem {A : Type} (key : Key A) (ls : LocalStorage) : option A :=
  match key in Key T return option T with
  | participantsKey => ls_participants ls
  | budgetItemsKey => ls_budgetItems ls
  | expensesKey => ls_expenses ls
  | settingsKey => ls_settings ls
  end.

(** What [JSON.parse] reads back from what [JSON.stringify] wrote. *)
Definition json {A : Type} (key : Key A) : A -> A :=
  match key in Key T return T -> T with
  | participantsKey => map json_participant
  | budgetItemsKey => map json_budgetItem
  | expensesKey => map json_expense
  | settingsKey => fun s => s
  end.

Definition setItem {A : Type} (key : Key A) (v : A) (ls : LocalStorage)
  : LocalStorage :=
  match key in Key T return T -> LocalStorage with
  | participantsKey => fun v =>
      {| ls_participants := Some v; ls_budgetItems := ls_budgetItems ls;
         ls_expenses := ls_expenses ls; ls_settings := ls_settings ls |}
  | budgetItemsKey => fun v =>
      {| ls_participants := ls_participants ls; ls_budgetItems := Some v;
         ls_expenses := ls_expenses ls; ls_settings := ls_settings ls |}
  | expensesKey => fun v =>
      {| ls_participants := ls_participants ls;
         ls_budgetItems := ls_budgetItems ls;
         ls_expenses := Some v; ls_settings := ls_settings ls |}
  | settingsKey => fun v =>
      {| ls_participants := ls_participants ls;
         ls_budgetItems := ls_budgetItems ls;
         ls_expenses := ls_expenses ls; ls_settings := Some v |}
  end v.

(* ================================================================== *)
(** * The storage wrapper and the repositories *)
(* ================================================================== *)

(** [storage.get (key, defaultValue)]. *)
Definition storage_get {A : Type} (key : Key A) (defaultValue : A)
  (st : State) : A :=
  match getItem key (localStorage st) with
  | Some item => item
  | None => defaultValue
  end.

(** [storage.set (key, value)]: the new state and the returned flag. *)
Definition storage_set {A : Type} (key : Key A) (value : A) (st : State)
  : State * bool :=
  ({| localStorage := setItem key (json key value) (localStorage st);
      systemData := systemData st;
      darkMode := darkMode st |}, true).

Definition defaultSettings : Settings := {| theme := "light" |}.

Definition initializeSystemData (st : State) : State :=
  {| localStorage := localStorage st;
     systemData :=
       {| participants := storage_get participantsKey [] st;
          budgetItems := storage_get budgetItemsKey [] st;
          expenses := storage_get expensesKey [] st;
          settings := storage_get settingsKey defaultSettings st |};
     darkMode := darkMode st |}.


Definition getParticipants (st : State) : list Participant :=
  storage_get participantsKey [] st.

Definition withSystemData (sd : SystemData) (st : State) : State :=
  {| localStorage := localStorage st; systemData := sd;
     darkMode := darkMode st |}.

Definition saveParticipants (ps : list Participant) (st : State) : State :=
  let sd := systemData st in
  let st1 := withSystemData
               {| participants := ps; budgetItems := budgetItems sd;
                  expenses := expenses sd; settings := settings sd |} st in
  fst (storage_set participantsKey ps st1).

Definition getBudgetItems (st : State) : list BudgetItem :=
  storage_get budgetItemsKey [] st.

Definition saveBudgetItems (bs : list BudgetItem) (st : State) : State :=
  let sd := systemData st in
  let st1 := withSystemData
               {| participants := participants sd; budgetItems := bs;
                  expenses := expenses sd; settings := settings sd |} st in
  fst (storage_set budgetItemsKey bs st1).

Definition getExpenses (st : State) : list Expense :=
  storage_get expensesKey [] st.

Definition saveExpenses (es : list Expense) (st : State) : State :=
  let sd := systemData st in
  let st1 := withSystemData
               {| participants := participants sd;
                  budgetItems := budgetItems sd;
                  expenses := es; settings := settings sd |} st in
  fst (storage_set expensesKey es st1).


(* ================================================================== *)
(** * Notifications, validation and export *)
(* ================================================================== *)

Inductive NotificationType : Type := success | error | warning | info.

(** What [showNotification (message, type)] puts on the page. *)
Record Notification : Type := {
  n_message : string;
  n_type : NotificationType
}.

Definition showNotification (message : string) (type : NotificationType)
  : Notification := {| n_message := message; n_type := type |}.

(** A character of the class [[^\s@]]. *)
Definition emailChar (c : ascii) : bool :=
  negb (isWhiteSpace c) && negb (Ascii.eqb c "@"%char).

(** [^[^\s@]+\.[^\s@]+$] on what follows the at sign: every character is in
    the class, and some point has a character before it and one after it.
    [seen] tells whether a character has been read already. *)
Fixpoint matchDomain (seen : bool) (s : string) : bool :=
  match s with
  | EmptyString => false
  | String c s' =>
      emailChar c &&
      ((seen && Ascii.eqb c "."%char && JsString.truthy s'
        && JsString.forallb emailChar s')
       || matchDomain true s')
  end.

(** [^[^\s@]+@] then the domain: the local part is read up to the first at
    sign, which the class excludes. *)
Fixpoint matchLocal (seen : bool) (s : string) : bool :=
  match s with
  | EmptyString => false
  | String c s' =>
      if Ascii.eqb c "@"%char then seen && matchDomain false s'
      else emailChar c && matchLocal true s'
  end.

(** [isValidEmail]: the test of [/^[^\s@]+@[^\s@]+\.[^\s@]+$/]. *)
Definition isValidEmail (email : string) : bool := matchLocal false email.

Definition newline : string := String (ascii_of_nat 10) EmptyString.
Definition dquoteString : string := String dquote EmptyString.

(** The cell [downloadCSV] computes for one header of one row. *)
Definition csvCell (row : Obj) (header : string) : JsVal :=
  let value := if ToBoolean (getProp row header)
               then getProp row header else VStr EmptyString in
  match value with
  | VStr s =>
      if includes s "," || includes s dquoteString
      then VStr (dquoteString ++ doubleQuotes s ++ dquoteString)
      else value
  | _ => value
  end.

(** The text of one element in [Array.prototype.join]: [undefined] and
    [null] give the empty string, every other element its [ToString]. *)
Definition elementText (v : JsVal) : string :=
  match v with
  | VUndefined | VNull => EmptyString
  | _ => ToString v
  end.

(** [Array.prototype.join] on values. *)
Definition joinValues (sep : string) (l : list JsVal) : string :=
  join sep (map elementText l).

Definition csvRow (headers : list string) (row : Obj) : string :=
  joinValues "," (map (csvCell row) headers).

(** The text [downloadCSV] puts in the file, for a non-empty [data]. *)
Definition csvContent (data : list Obj) : string :=
  match data with
  | [] => EmptyString
  | first :: _ =>
      let headers := Object_keys first in
      join newline (join "," headers :: map (csvRow headers) data)
  end.

(** What an export leaves behind: the file handed to the browser, if any,
    and the notification shown. *)
Record Export : Type := {
  x_file : option (string * string);
  x_notification : Notification
}.

Definition downloadCSV (data : list Obj) (filename : string) : Export :=
  match data with
  | [] => {| x_file := None;
             x_notification :=
               showNotification "No data available for export" error |}
  | _ => {| x_file := Some (filename, csvContent data);
            x_notification :=
              showNotification "CSV file downloaded successfully!" success |}
  end.

(* ================================================================== *)
(** * Participants *)
(* ================================================================== *)

(** What [FormData.get] returns for the fields of the participant form:
    [None] is [null], a field the form does not have. *)
Record ParticipantForm : Type := {
  f_name : option string;
  f_email : option string;
  f_phone : option string;
  f_programme : option string;
  f_customProgramme : option string;
  f_startDate : option string;
  f_notes : option string
}.

(** [!v] on a form value. *)
Definition missing (v : option string) : bool :=
  match v with
  | None => true
  | Some s => negb (JsString.truthy s)
  end.

(** [v || ''] on a form value. *)
Definition orEmpty (v : option string) : string :=
  match v with None => EmptyString | Some s => s end.

Definition generateParticipantId (st : State) : string :=
  let participants := getParticipants st in
  let maxId :=
    fold_left
      (fun maxId p =>
         let idNum := parseInt (replace "P" EmptyString (p_id p)) in
         if gt idNum maxId then idNum else maxId)
      participants zero in
  "P" ++ padStart 3 "0" (Number_toString (maxId + 1)%float).

(** [addParticipant], given the clock reading [now] and the submitted
    [form]: the new state and the notification shown last. *)
Definition addParticipant (now : string) (form : ParticipantForm) (st : State)
  : State * Notification :=
  let name := f_name form in
  let email := f_email form in
  let phone := f_phone form in
  let customProgramme := f_customProgramme form in
  let startDate := f_startDate form in
  let notes := f_notes form in
  let customIsBlank :=
    missing customProgramme
    || String.eqb (trim (orEmpty customProgramme)) EmptyString in
  let isCustom :=
    match f_programme form with
    | Some s => String.eqb s "custom"
    | None => false
    end in
  if isCustom && customIsBlank then
    (st, showNotification "Please enter a custom programme name" error)
  else
    let programme :=
      if isCustom then Some (trim (orEmpty customProgramme))
      else f_programme form in
    if missing name || missing email || missing programme || missing startDate
    then (st, showNotification "Please fill all required fields" error)
    else if negb (isValidEmail (orEmpty email)) then
      (st, showNotification "Please enter a valid email address" error)
    else
      let participants := getParticipants st in
      if existsb (fun p => String.eqb (p_email p) (orEmpty email)) participants
      then (st, showNotification
                  "A participant with this email already exists" error)
      else
        let newParticipant :=
          {| p_id := generateParticipantId st;
             p_name := orEmpty name;
             p_email := orEmpty email;
             p_phone := orEmpty phone;
             p_programme := orEmpty programme;
             p_startDate := orEmpty startDate;
             p_progress := Num zero;
             p_status := "Active";
             p_notes := orEmpty notes;
             p_attendance := Num zero;
             p_revenue := Num zero;
             p_jobs := Num zero;
             p_createdAt := now;
             p_updatedAt := None |} in
        (saveParticipants (participants ++ [newParticipant]) st,
         showNotification
           ("Participant " ++ p_name newParticipant ++ " added successfully!")
           success).

(** [calculateSuccessRate]. *)
Definition calculateSuccessRate (st : State) : float :=
  let participants := getParticipants st in
  if Nat.eqb (List.length participants) 0 then zero
  else
    let completedParticipants :=
      List.length
        (filter (fun p => String.eqb (p_status p) "Completed") participants) in
    Math_round
      ((Z2F (Z.of_nat completedParticipants)
        / Z2F (Z.of_nat (List.length participants))) * 100)%float.

(* ================================================================== *)
(** * Budget items, expenses and the monthly report *)
(* ================================================================== *)

Record BudgetForm : Type := {
  bf_category : option string;
  bf_amount : option string;
  bf_priority : option string;
  bf_description : option string
}.

(** [addBudgetItem], given the clock reading [now] and the submitted
    [form]. *)
Definition addBudgetItem (now : string) (form : BudgetForm) (st : State)
  : State * Notification :=
  let category := bf_category form in
  let amount := bf_amount form in
  let priority := bf_priority form in
  let description := bf_description form in
  if missing category || missing amount || missing priority then
    (st, showNotification "Please fill all required fields" error)
  else
    let budgetItems := getBudgetItems st in
    if existsb
         (fun item =>
            String.eqb (toLowerCase (b_category item))
                       (toLowerCase (orEmpty category)))
         budgetItems
    then (st, showNotification
                "A budget item with this category already exists" error)
    else
      let newBudgetItem :=
        {| b_category := orEmpty category;
           b_amount := Num (parseFloat (orEmpty amount));
           b_priority := orEmpty priority;
           b_description := orEmpty description;
           b_dateAdded := beforeFirst "T"%char now;
           b_createdAt := now |} in
      (saveBudgetItems (budgetItems ++ [newBudgetItem]) st,
       showNotification
         ("Budget item " ++ dquoteString ++ orEmpty category ++ dquoteString
          ++ " added successfully!") success).

(** [array.splice (start, 1)] for an integer [start]: what is left of the
    array. *)
Definition splice1 {A : Type} (start : Z) (l : list A) : list A :=
  let len := Z.of_nat (List.length l) in
  let actualStart :=
    if (start <? 0)%Z then Z.max (len + start) 0 else Z.min start len in
  let deleteCount := Z.min (Z.max 1 0) (len - actualStart) in
  firstn (Z.to_nat actualStart) l
  ++ skipn (Z.to_nat (actualStart + deleteCount)) l.

(** [removeBudgetItem (index)], given the answer to the [confirm] dialog.
    [index] is the integer row position the budget table passes.  No
    notification is shown when the dialog is declined. *)
Definition removeBudgetItem (confirmed : bool) (index : Z) (st : State)
  : State * option Notification :=
  if negb confirmed then (st, None)
  else
    let budgetItems := getBudgetItems st in
    if (index <? 0)%Z || (Z.of_nat (List.length budgetItems) <=? index)%Z then
      (st, Some (showNotification "Budget item not found" error))
    else
      (saveBudgetItems (splice1 index budgetItems) st,
       Some (showNotification "Budget item removed successfully" success)).

Definition generateExpenseId (st : State) : string :=
  let expenses := getExpenses st in
  let maxId :=
    fold_left
      (fun maxId e =>
         let idNum := parseInt (replace "EXP" EmptyString (e_id e)) in
         if gt idNum maxId then idNum else maxId)
      expenses zero in
  "EXP" ++ padStart 3 "0" (Number_toString (maxId + 1)%float).

(** The row of the monthly report for one budget item. *)
Definition reportRow (expenses : list Expense) (item : BudgetItem) : Obj :=
  let spent :=
    fold_left
      (fun sum e => (sum + toNumber (e_amount e))%float)
      (filter (fun e => String.eqb (e_category e) (b_category item)) expenses)
      zero in
  [ ("Category", VStr (b_category item));
    ("Budget", numVal (b_amount item));
    ("Spent", VNum spent);
    ("Remaining", VNum (toNumber (b_amount item) - spent)%float);
    ("Utilization",
     VStr (Number_toString
             (Math_round ((spent / toNumber (b_amount item)) * 100)%float)
           ++ "%")) ].

(** The table [generateMonthlyReport] builds when its timer fires. *)
Definition reportData (st : State) : list Obj :=
  let budgetItems := getBudgetItems st in
  let expenses := getExpenses st in
  map (reportRow expenses) budgetItems.

(** [generateMonthlyReport], at the time its deferred body runs, [now]
    being the clock reading. *)
Definition generateMonthlyReport (now : string) (st : State) : Export :=
  downloadCSV (reportData st)
    ("monthly-budget-report-" ++ beforeFirst "T"%char now ++ ".csv").

(* ================================================================== *)
(** * Theme, reset and the remaining participant operations *)
(* ================================================================== *)


(** The state when the script has been read on a new page over the store
    [ls]: the mirror is filled from the store and the body has no class
    yet. *)
Definition scriptStart (ls : LocalStorage) : State :=
  initializeSystemData
    {| localStorage := ls;
       systemData := {| participants := []; budgetItems := [];
                        expenses := []; settings := defaultSettings |};
       darkMode := false |}.


(** [clearAllData]: the four keys are removed and the mirror is emptied.
    (The key [financeSettings], removed as well, is read nowhere in the
    program and is not represented.) *)
Definition clearAllData (st : State) : State :=
  {| localStorage := emptyStorage;
     systemData := {| participants := []; budgetItems := [];
                      expenses := []; settings := defaultSettings |};
     darkMode := darkMode st |}.

(** [removeParticipant (id)], given the answer to the [confirm] dialog. *)
Definition removeParticipant (confirmed : bool) (id : string) (st : State)
  : State * option Notification :=
  if negb confirmed then (st, None)
  else
    let participants := getParticipants st in
    let filteredParticipants :=
      filter (fun p => negb (String.eqb (p_id p) id)) participants in
    if Nat.eqb (List.length filteredParticipants) (List.length participants)
    then (st, Some (showNotification "Participant not found" error))
    else
      (saveParticipants filteredParticipants st,
       Some (showNotification "Participant removed successfully" success)).

(** The participant with status Completed and the update time [now]. *)
Definition completedAt (now : string) (p : Participant) : Participant :=
  {| p_id := p_id p; p_name := p_name p; p_email := p_email p;
     p_phone := p_phone p; p_programme := p_programme p;
     p_startDate := p_startDate p; p_progress := p_progress p;
     p_status := "Completed"; p_notes := p_notes p;
     p_attendance := p_attendance p; p_revenue := p_revenue p;
     p_jobs := p_jobs p; p_createdAt := p_createdAt p;
     p_updatedAt := Some now |}.

(** The array after the element [find] returns, the first one with the id,
    has been updated in place; [None] when [find] returns [undefined]. *)
Fixpoint completeFirst (now id : string) (ps : list Participant)
  : option (Participant * list Participant) :=
  match ps with
  | [] => None
  | p :: rest =>
      if String.eqb (p_id p) id
      then Some (completedAt now p, completedAt now p :: rest)
      else match completeFirst now id rest with
           | Some (found, rest') => Some (found, p :: rest')
           | None => None
           end
  end.

(** [markParticipantCompleted (participantId)], [now] being the clock
    reading: the new state and the value returned, [None] for [null]. *)
Definition markParticipantCompleted (now participantId : string) (st : State)
  : State * option Participant :=
  match completeFirst now participantId (getParticipants st) with
  | Some (participant, participants) =>
      (saveParticipants participants st, Some participant)
  | None => (st, None)
  end.

(** [addTestParticipant]: the new state and the record returned. *)
Definition addTestParticipant (now : string) (st : State)
  : State * Participant :=
  let testParticipant :=
    {| p_id := "TEST001";
       p_name := "Test Participant";
       p_email := "test@example.com";
       p_phone := "1234567890";
       p_programme := "entrepreneurship";
       p_startDate := "2025-01-01";
       p_progress := Num zero;
       p_status := "Active";
       p_notes := "Test participant for debugging";
       p_attendance := Num zero;
       p_revenue := Num zero;
       p_jobs := Num zero;
       p_createdAt := now;
       p_updatedAt := None |} in
  (saveParticipants (getParticipants st ++ [testParticipant]) st,
   testParticipant).

(** The size of [new Set (values)]: the number of distinct values. *)
Definition Set_size (values : list string) : nat :=
  List.length
    (fold_left
       (fun set v =>
          if existsb (String.eqb v) set then set else (set ++ [v])%list)
       values []).

(** The three numbers [updateAllStats] puts on the page: participants,
    programmes and success rate. *)
Definition updateAllStats (st : State) : nat * nat * float :=
  let participants := getParticipants st in
  let programs := Set_size (map p_programme participants) in
  let successRate := calculateSuccessRate st in
  (List.length participants, programs, successRate).

(* ================================================================== *)
(** * Expenses and the remaining reports *)
(* ================================================================== *)

Record ExpenseForm : Type := {
  ef_category : option string;
  ef_amount : option string;
  ef_date : option string;
  ef_description : option string
}.

(** [addExpense], given the clock reading [now] and the submitted [form].
    [formatCurrency] stands for the function of that name, whose text is
    decided by the locale data of [toLocaleString]. *)
Definition addExpense (formatCurrency : float -> string)
  (now : string) (form : ExpenseForm) (st : State)
  : State * Notification :=
  let category := ef_category form in
  let amount := ef_amount form in
  let date := ef_date form in
  let description := ef_description form in
  if missing category || missing amount || missing date || missing description
  then (st, showNotification "Please fill all required fields" error)
  else
    let expenses := getExpenses st in
    let newExpense :=
      {| e_id := generateExpenseId st;
         e_category := orEmpty category;
         e_amount := Num (parseFloat (orEmpty amount));
         e_date := orEmpty date;
         e_description := orEmpty description;
         e_createdAt := now |} in
    (saveExpenses (expenses ++ [newExpense]) st,
     showNotification
       ("Expense of " ++ formatCurrency (toNumber (e_amount newExpense))
        ++ " added successfully!") success).

(** A stored participant as the object [JSON.parse] gives: the properties
    in the order they were written, [updatedAt] last and only when set. *)
Definition participantObject (p : Participant) : Obj :=
  ([ ("id", VStr (p_id p)); ("name", VStr (p_name p));
    ("email", VStr (p_email p)); ("phone", VStr (p_phone p));
    ("programme", VStr (p_programme p));
    ("startDate", VStr (p_startDate p));
    ("progress", numVal (p_progress p)); ("status", VStr (p_status p));
    ("notes", VStr (p_notes p)); ("attendance", numVal (p_attendance p));
    ("revenue", numVal (p_revenue p)); ("jobs", numVal (p_jobs p));
    ("createdAt", VStr (p_createdAt p)) ]
  ++ match p_updatedAt p with
     | Some t => [("updatedAt", VStr t)]
     | None => []
     end)%list.

(** [generateReport (type)] when its timer fires; [None] is a call without
    argument. *)
Definition generateReport (now : string) (type : option string) (st : State)
  : Export :=
  let type := if missing type then "comprehensive" else orEmpty type in
  let participants := getParticipants st in
  downloadCSV (map participantObject participants)
    (type ++ "-report-" ++ beforeFirst "T"%char now ++ ".csv").

(** [p.revenue || 0] and [p.jobs || 0]. *)
Definition orZero (n : NumField) : float :=
  if ToBoolean (numVal n) then toNumber n else zero.

Definition metric (name : string) (value : JsVal) : Obj :=
  [("Metric", VStr name); ("Value", value)].

(** The table of [generateForecastReport]. *)
Definition forecastData (st : State) : list Obj :=
  let budgetItems := getBudgetItems st in
  let expenses := getExpenses st in
  let totalBudget :=
    fold_left (fun sum item => (sum + toNumber (b_amount item))%float)
              budgetItems zero in
  let totalExpenses :=
    fold_left (fun sum exp => (sum + toNumber (e_amount exp))%float)
              expenses zero in
  let averageMonthlyExpense :=
    (totalExpenses / Z2F (Z.max (Z.of_nat (List.length expenses)) 1))%float in
  [ metric "Total Budget" (VNum totalBudget);
    metric "Total Expenses" (VNum totalExpenses);
    metric "Remaining Budget" (VNum (totalBudget - totalExpenses)%float);
    metric "Average Expense" (VStr (toFixed2 averageMonthlyExpense));
    metric "Projected Monthly Burn" (VStr (toFixed2 averageMonthlyExpense)) ].

Definition generateForecastReport (now : string) (st : State) : Export :=
  downloadCSV (forecastData st)
    ("financial-forecast-" ++ beforeFirst "T"%char now ++ ".csv").

(** The table of [generateROIReport]. *)
Definition roiData (st : State) : list Obj :=
  let participants := getParticipants st in
  let budgetItems := getBudgetItems st in
  let totalInvestment :=
    fold_left (fun sum item => (sum + toNumber (b_amount item))%float)
              budgetItems zero in
  let totalRevenue :=
    fold_left (fun sum p => (sum + orZero (p_revenue p))%float)
              participants zero in
  let totalJobs :=
    fold_left (fun sum p => (sum + orZero (p_jobs p))%float)
              participants zero in
  let length := Z.of_nat (List.length participants) in
  [ metric "Total Investment" (VNum totalInvestment);
    metric "Total Revenue Generated" (VNum totalRevenue);
    metric "Total Jobs Created" (VNum totalJobs);
    metric "ROI Percentage"
      (if gt totalInvestment zero
       then VStr (toFixed2 ((totalRevenue / totalInvestment) * 100)%float
                  ++ "%")
       else VStr "N/A");
    metric "Revenue per Participant"
      (if (0 <? length)%Z
       then VStr (toFixed2 (totalRevenue / Z2F length)%float)
       else VNum zero);
    metric "Jobs per Participant"
      (if (0 <? length)%Z
       then VStr (toFixed2 (totalJobs / Z2F length)%float)
       else VNum zero) ].

Definition generateROIReport (now : string) (st : State) : Export :=
  downloadCSV (roiData st)
    ("roi-analysis-" ++ beforeFirst "T"%char now ++ ".csv").

(* ================================================================== *)
(** * Reference definitions *)
(* ================================================================== *)

(** The definitions below are not part of the program: they are what the
    program is compared with, and the inputs it is run on. *)

(** ** Identifiers *)

(** An id is well formed for a prefix when it is the prefix followed by at
    least one decimal digit and nothing else. *)
Definition wellFormedId (pre id : string) : bool :=
  prefix pre id
  && JsString.truthy (drop (String.length pre) id)
  && JsString.forallb isDigit (drop (String.length pre) id).

(** The numeric suffix of a well-formed id. *)
Definition idSuffix (pre id : string) : Z :=
  digitsValue 10 (drop (String.length pre) id).

(** The greatest numeric suffix, 0 for no id. *)
Definition maxSuffix (pre : string) (ids : list string) : Z :=
  fold_right (fun id acc => Z.max (idSuffix pre id) acc) 0%Z ids.

(** The prefix followed by the greatest suffix plus one, written in decimal
    and padded with zeros to three digits. *)
Definition nextId_spec (pre : string) (ids : list string) : string :=
  pre ++ padStart 3 "0" (decimal (maxSuffix pre ids + 1)).

(** One turn of the loop of [generateParticipantId] and
    [generateExpenseId], on the id alone. *)
Definition idStep (pre : string) (maxId : float) (id : string) : float :=
  let idNum := parseInt (replace pre EmptyString id) in
  if gt idNum maxId then idNum else maxId.

(** The whole of either function on the ids alone. *)
Definition nextIdFrom (pre : string) (ids : list string) : string :=
  let maxId := fold_left (idStep pre) ids zero in
  pre ++ padStart 3 "0" (Number_toString (maxId + 1)%float).

(** ** Ids whose suffix is not a plain numeral *)

(** The id with the first occurrence of the prefix removed: the text the
    generators hand to [parseInt]. *)
Definition suffixOf (pre id : string) : string := replace pre EmptyString id.

(** The decimal digits a string starts with. *)
Fixpoint leadingDigits (s : string) : string :=
  match s with
  | String c s' => if isDigit c then String c (leadingDigits s') else EmptyString
  | EmptyString => EmptyString
  end.

(** Their value, 0 when the string starts with no digit. *)
Definition leadingValue (s : string) : Z := digitsValue 10 (leadingDigits s).

(** The string starts neither with white space, nor with a sign, nor with
    [0x] or [0X]. *)
Definition plainStart (s : string) : bool :=
  match s with
  | EmptyString => true
  | String c _ =>
      negb (isWhiteSpace c) && negb (Ascii.eqb c "-"%char) && negb (Ascii.eqb c "+"%char)
      && negb (prefix "0x" s || prefix "0X" s)
  end.

(** The greatest value of the leading digits of the suffixes, 0 for no id. *)
Definition maxLeading (pre : string) (ids : list string) : Z :=
  fold_right (fun id acc => Z.max (leadingValue (suffixOf pre id)) acc) 0%Z ids.

(** The ids the amended statement speaks of: the suffix starts plainly and
    its leading digits stay in the range where the arithmetic is exact. *)
Definition readableId (pre id : string) : Prop :=
  plainStart (suffixOf pre id) = true
  /\ (leadingValue (suffixOf pre id) < 2 ^ 53 - 1)%Z.

(** ** Reading a CSV cell back *)

(** What stands between the quotes of a quoted cell, every doubled quote
    read as one quote, up to the closing quote. *)
Fixpoint undouble (s : string) : string :=
  match s with
  | EmptyString => EmptyString
  | String c s1 =>
      if Ascii.eqb c dquote then
        match s1 with
        | String d s2 =>
            if Ascii.eqb d dquote then String dquote (undouble s2)
            else EmptyString
        | EmptyString => EmptyString
        end
      else String c (undouble s1)
  end.

(** The text a CSV reader gives for a cell: a cell that opens with a quote
    is unquoted, any other cell is taken as it is. *)
Definition unquoteCell (s : string) : string :=
  match s with
  | String c rest => if Ascii.eqb c dquote then undouble rest else s
  | EmptyString => EmptyString
  end.

(** The participant without its update time. *)
Definition withoutUpdatedAt (p : Participant) : Participant :=
  {| p_id := p_id p; p_name := p_name p; p_email := p_email p;
     p_phone := p_phone p; p_programme := p_programme p;
     p_startDate := p_startDate p; p_progress := p_progress p;
     p_status := p_status p; p_notes := p_notes p;
     p_attendance := p_attendance p; p_revenue := p_revenue p;
     p_jobs := p_jobs p; p_createdAt := p_createdAt p;
     p_updatedAt := None |}.

(** ** Percentages *)

(** [Math.round ((c / n) * 100)] on Numbers, as [calculateSuccessRate]
    computes it from its two counts. *)
Definition successRateOf (c n : Z) : float :=
  Math_round ((Z2F c / Z2F n) * 100)%float.

(** The number of participants whose status is Completed. *)
Definition completedCount (ps : list Participant) : Z :=
  Z.of_nat (List.length
              (filter (fun p => String.eqb (p_status p) "Completed") ps)).

(** [100 * c / n] rounded to the nearest integer in exact arithmetic, a
    half rounding up. *)
Definition roundedPercent (c n : Z) : Z := ((200 * c + n) / (2 * n))%Z.

(** Whether [100 * c / n] lies half-way between two integers. *)
Definition halfwayPercent (c n : Z) : bool :=
  ((200 * c) mod (2 * n) =? n)%Z.

(** [successRateOf] is [roundedPercent] wherever the percentage is not
    half-way. *)
Definition agreesWithRounded (c n : Z) : bool :=
  halfwayPercent c n
  || PrimFloat.Leibniz.eqb (successRateOf c n) (Z2F (roundedPercent c n)).

(** The same for every [0 <= c <= n] with [1 <= n <= N]. *)
Definition agreementUpTo (N : nat) : bool :=
  List.forallb
    (fun n => List.forallb
                (fun c => agreesWithRounded (Z.of_nat c) (Z.of_nat n))
                (seq 0 (S n)))
    (seq 1 N).

(** ** Binary64 values of small integers *)

(** The mantissa [m] shifted left by [k] places. *)
Definition pshift (m : positive) (k : Z) : positive :=
  match k with Zpos p => Pos.iter xO m p | _ => m end.

(** The binary64 representation of the integer [v] when it has at most 53
    significant bits. *)
Definition canon (v : positive) : spec_float :=
  let d := Zpos (digits2_pos v) in
  S754_finite false (pshift v (53 - d)) (d - 53).

(** ** Sample states *)

(** The state of a first visit, after [initializeSystemData]. *)
Definition freshState : State :=
  {| localStorage := emptyStorage;
     systemData := {| participants := []; budgetItems := [];
                      expenses := []; settings := defaultSettings |};
     darkMode := false |}.

Definition sampleParticipant (id email status : string) : Participant :=
  {| p_id := id; p_name := "Thandi"; p_email := email; p_phone := EmptyString;
     p_programme := "skills"; p_startDate := "2025-01-15";
     p_progress := Num zero; p_status := status; p_notes := EmptyString;
     p_attendance := Num zero; p_revenue := Num zero; p_jobs := Num zero;
     p_createdAt := "2025-01-15T08:00:00.000Z"; p_updatedAt := None |}.

Definition sampleBudgetItem (category : string) (amount : float) : BudgetItem :=
  {| b_category := category; b_amount := Num amount; b_priority := "High";
     b_description := EmptyString; b_dateAdded := "2025-01-15";
     b_createdAt := "2025-01-15T08:00:00.000Z" |}.

Definition sampleExpense (id category : string) (amount : float) : Expense :=
  {| e_id := id; e_category := category; e_amount := Num amount;
     e_date := "2025-02-01"; e_description := "venue";
     e_createdAt := "2025-02-01T08:00:00.000Z" |}.

Definition sampleForm (name email : string) : ParticipantForm :=
  {| f_name := Some name; f_email := Some email; f_phone := None;
     f_programme := Some "skills"; f_customProgramme := None;
     f_startDate := Some "2025-01-15"; f_notes := None |}.

Definition sampleBudgetForm (category amount : string) : BudgetForm :=
  {| bf_category := Some category; bf_amount := Some amount;
     bf_priority := Some "High"; bf_description := None |}.

Definition sampleNow : string := "2025-03-04T10:00:00.000Z".

(** A store holding the given participants and nothing else. *)
Definition stateOfParticipants (ps : list Participant) : State :=
  saveParticipants ps freshState.

Definition stateOfBudget (bs : list BudgetItem) (es : list Expense) : State :=
  saveExpenses es (saveBudgetItems bs freshState).

(** Participant number [i] of a cohort, with its own id and email. *)
Definition cohortMember (completed i : nat) : Participant :=
  sampleParticipant
    ("P" ++ padStart 3 "0" (decimal (Z.of_nat i)))
    ("member" ++ decimal (Z.of_nat i) ++ "@example.org")
    (if Nat.leb i completed then "Completed" else "Active").

(** A cohort of [total] participants of whom the first [completed] have
    completed. *)
Definition cohort (completed total : nat) : list Participant :=
  map (cohortMember completed) (seq 1 total).

Definition threeBudgetItems : State :=
  stateOfBudget [sampleBudgetItem "Training" 1000;
                 sampleBudgetItem "Travel" 500;
                 sampleBudgetItem "Venue" 250] [].

(** ** Frames *)

(** The budget items and expenses of [st'] are those of [st], in the store
    and in the mirror. *)
Definition sameFinance (st st' : State) : Prop :=
  getBudgetItems st' = getBudgetItems st
  /\ getExpenses st' = getExpenses st
  /\ budgetItems (systemData st') = budgetItems (systemData st)
  /\ expenses (systemData st') = expenses (systemData st).

(** The participants of [st'] are those of [st]. *)
Definition sameParticipants (st st' : State) : Prop :=
  getParticipants st' = getParticipants st
  /\ participants (systemData st') = participants (systemData st).

(** ** Reports *)

(** The value of the row of a metric table whose name is [name]. *)
Fixpoint metricValue (name : string) (rows : list Obj) : JsVal :=
  match rows with
  | [] => VUndefined
  | row :: rest =>
      match getProp row "Metric" with
      | VStr n => if String.eqb n name then getProp row "Value"
                  else metricValue name rest
      | _ => metricValue name rest
      end
  end.

(** One insertion into a [Set] of strings kept in insertion order. *)
Definition setAdd (set : list string) (v : string) : list string :=
  if existsb (String.eqb v) set then set else (set ++ [v])%list.



(* ================================================================== *)
(** * Properties *)
(* ================================================================== *)

From Stdlib Require Import Zpower Permutation DecimalN.
Local Open Scope Z_scope.

Lemma digits2_pos_iter (m p : positive) :
  digits2_pos (Pos.iter xO m p) = (digits2_pos m + p)%positive.
Proof.
  induction p as [|p IH] using Pos.peano_ind.
  - simpl. lia.
  - rewrite Pos.iter_succ. simpl. rewrite IH. lia.
Qed.

Lemma digits2_pos_pshift (m : positive) (k : Z) :
  0 <= k -> Zpos (digits2_pos (pshift m k)) = Zpos (digits2_pos m) + k.
Proof.
  destruct k as [|p|p]; simpl; intros H; try lia.
  rewrite digits2_pos_iter. lia.
Qed.

Lemma pshift_value (m : positive) (k : Z) :
  0 <= k -> Zpos (pshift m k) = Zpos m * 2 ^ k.
Proof.
  destruct k as [|p|p]; simpl; intros H; try lia.
  change (Pos.iter xO m p) with (shift_pos p m).
  rewrite shift_pos_correct. rewrite Z.mul_comm. reflexivity.
Qed.

Lemma pshift_add (m : positive) (a b : Z) :
  0 <= a -> 0 <= b -> pshift (pshift m a) b = pshift m (a + b).
Proof.
  intros Ha Hb. apply Pos2Z.inj. rewrite !pshift_value by lia.
  rewrite Z.pow_add_r by lia. ring.
Qed.

Lemma iter_shr_exact (p m : positive) :
  iter_pos shr_1 p (Build_shr_record (Zpos (Pos.iter xO m p)) false false)
  = Build_shr_record (Zpos m) false false.
Proof.
  revert m. induction p as [p IH|p IH|]; intros m; simpl.
  - rewrite IH, IH. reflexivity.
  - rewrite IH, IH. reflexivity.
  - reflexivity.
Qed.

Lemma round_aux_canonical (sx : bool) (m : positive) (e : Z) :
  fexp prec emax (Zpos (digits2_pos m) + e) = e ->
  e <= emax - prec ->
  binary_round_aux prec emax sx (Zpos m) e loc_Exact = S754_finite sx m e.
Proof.
  intros Hc He. unfold binary_round_aux, shr_fexp. cbn [Zdigits2 shr_record_of_loc].
  rewrite Hc, Z.sub_diag. cbn [shr shr_m loc_of_shr_record round_nearest_even Zdigits2].
  rewrite Hc, Z.sub_diag. cbn [shr shr_m].
  destruct (Z.leb_spec e (emax - prec)); [reflexivity|lia].
Qed.

Lemma round_aux_shifted (sx : bool) (m p : positive) (e : Z) :
  fexp prec emax (Zpos (digits2_pos m) + (e + Zpos p)) = e + Zpos p ->
  e + Zpos p <= emax - prec ->
  binary_round_aux prec emax sx (Zpos (Pos.iter xO m p)) e loc_Exact
  = S754_finite sx m (e + Zpos p).
Proof.
  intros Hc He. unfold binary_round_aux, shr_fexp. cbn [Zdigits2 shr_record_of_loc].
  rewrite digits2_pos_iter.
  replace (Zpos (digits2_pos m + p) + e) with (Zpos (digits2_pos m) + (e + Zpos p)) by lia.
  rewrite Hc. replace (e + Zpos p - e) with (Zpos p) by lia.
  cbn [shr]. rewrite iter_shr_exact.
  cbn [shr_m loc_of_shr_record round_nearest_even Zdigits2].
  rewrite Hc, Z.sub_diag. cbn [shr shr_m].
  destruct (Z.leb_spec (e + Zpos p) (emax - prec)); [reflexivity|lia].
Qed.

Lemma fexp_small (d : Z) : 1 <= d -> fexp prec emax d = d - 53.
Proof. intros H. unfold fexp, emin, prec, emax. lia. Qed.

Lemma binary_round_exact (sx : bool) (v : positive) (k : Z) :
  0 <= k -> Zpos (digits2_pos v) <= 53 ->
  binary_round prec emax sx (pshift v k) (- k)
  = S754_finite sx (pshift v (53 - Zpos (digits2_pos v))) (Zpos (digits2_pos v) - 53).
Proof.
  intros Hk Hd. set (d := Zpos (digits2_pos v)) in *.
  assert (Hd1 : 1 <= d) by (unfold d; lia).
  unfold binary_round. rewrite digits2_pos_pshift by lia. fold d.
  replace (d + k + - k) with d by lia. rewrite fexp_small by lia.
  unfold shl_align.
  destruct (d - 53 - - k) as [|q|q] eqn:Hq.
  - (* already aligned *)
    assert (k = 53 - d) by lia. subst k.
    replace (- (53 - d)) with (d - 53) by lia.
    apply round_aux_canonical.
    + rewrite digits2_pos_pshift by lia. fold d. rewrite fexp_small by lia. lia.
    + unfold emax, prec. lia.
  - (* too many bits: shift right *)
    assert (Hk' : k = (53 - d) + Zpos q) by lia.
    rewrite Hk'. rewrite <- pshift_add by lia.
    change (pshift (pshift v (53 - d)) (Zpos q)) with (Pos.iter xO (pshift v (53 - d)) q).
    replace (d - 53) with (- (53 - d + Zpos q) + Zpos q) by lia.
    apply round_aux_shifted.
    + rewrite digits2_pos_pshift by lia. fold d. rewrite fexp_small by lia. lia.
    + unfold emax, prec. lia.
  - (* shift left *)
    assert (Hs : pshift (pshift v k) (Zpos q) = pshift v (53 - d)).
    { rewrite pshift_add by lia. f_equal. lia. }
    change (Pos.iter xO (pshift v k) q) with (pshift (pshift v k) (Zpos q)).
    rewrite Hs.
    apply round_aux_canonical.
    + rewrite digits2_pos_pshift by lia. fold d. rewrite fexp_small by lia. lia.
    + unfold emax, prec. lia.
Qed.

Lemma canon_valid (v : positive) :
  Zpos (digits2_pos v) <= 53 -> valid_binary (canon v) = true.
Proof.
  intros Hd. unfold canon, valid_binary, bounded, canonical_mantissa.
  rewrite digits2_pos_pshift by lia.
  rewrite fexp_small by lia.
  apply andb_true_intro. split.
  - apply Z.eqb_eq. lia.
  - apply Z.leb_le. unfold emax, prec. lia.
Qed.

Lemma Prim2SF_Z2F (v : positive) :
  Zpos (digits2_pos v) <= 53 -> Prim2SF (Z2F (Zpos v)) = canon v.
Proof.
  intros Hd. unfold Z2F, Q2F, roundQ. cbn [Z.ltb Z.compare Z.abs].
  cbn [digits2_pos].
  set (k := Z.max 0 (1 + 64 - Zpos (digits2_pos v))).
  assert (Hk : 0 <= k) by lia.
  rewrite Z.shiftl_mul_pow2 by lia.
  assert (Hdiv : Z.div_eucl (Zpos v * 2 ^ k) 1 = (Zpos v * 2 ^ k, 0)).
  { pose proof (Z.div_eucl_eq (Zpos v * 2 ^ k) 1 ltac:(lia)) as E.
    pose proof (Z.mod_pos_bound (Zpos v * 2 ^ k) 1 ltac:(lia)) as B.
    unfold Z.modulo in B.
    destruct (Z.div_eucl (Zpos v * 2 ^ k) 1) as [q r]. f_equal; lia. }
  rewrite Hdiv. cbn [Z.eqb].
  replace (2 * (Zpos v * 2 ^ k) + 0) with (Zpos (pshift v (k + 1))).
  2:{ rewrite pshift_value by lia. rewrite Z.pow_add_r by lia. ring. }
  replace (- k - 1) with (- (k + 1)) by lia.
  cbn [binary_normalize]. rewrite binary_round_exact by lia.
  fold (canon v). apply Prim2SF_SF2Prim, canon_valid, Hd.
Qed.

Lemma shl_align_fst (m : positive) (e e' : Z) :
  e' <= e -> fst (shl_align m e e') = pshift m (e - e').
Proof.
  intros H. unfold shl_align.
  destruct (e' - e) as [|q|q] eqn:Hq; cbn [fst].
  - replace (e - e') with 0 by lia. reflexivity.
  - lia.
  - replace (e - e') with (Zpos q) by lia. reflexivity.
Qed.

Lemma digits2_pos_bounds (v : positive) :
  2 ^ (Zpos (digits2_pos v) - 1) <= Zpos v < 2 ^ Zpos (digits2_pos v).
Proof.
  induction v as [v IH|v IH|]; cbn [digits2_pos].
  - rewrite Pos2Z.inj_succ. change (Zpos v~1) with (2 * Zpos v + 1).
    replace (Z.succ (Zpos (digits2_pos v)) - 1) with (Z.succ (Zpos (digits2_pos v) - 1)) by lia.
    rewrite !Z.pow_succ_r by lia. lia.
  - rewrite Pos2Z.inj_succ. change (Zpos v~0) with (2 * Zpos v).
    replace (Z.succ (Zpos (digits2_pos v)) - 1) with (Z.succ (Zpos (digits2_pos v) - 1)) by lia.
    rewrite !Z.pow_succ_r by lia. lia.
  - split; [apply Z.leb_le | apply Z.ltb_lt]; reflexivity.
Qed.

Lemma digits2_pos_le_53 (v : positive) :
  Zpos v < 2 ^ 53 -> Zpos (digits2_pos v) <= 53.
Proof.
  intros H. pose proof (digits2_pos_bounds v) as [B _].
  destruct (Z_le_gt_dec (Zpos (digits2_pos v)) 53) as [|G]; [assumption|exfalso].
  assert (2 ^ 53 <= 2 ^ (Zpos (digits2_pos v) - 1)) by (apply Z.pow_le_mono_r; lia).
  lia.
Qed.

Lemma Prim2SF_one : Prim2SF 1%float = canon 1.
Proof. reflexivity. Qed.

Lemma Z2F_succ_pos (a : positive) :
  Zpos a + 1 < 2 ^ 53 -> (Z2F (Zpos a) + 1)%float = Z2F (Zpos a + 1).
Proof.
  intros H. apply Prim2SF_inj.
  assert (Ha : Zpos (digits2_pos a) <= 53) by (apply digits2_pos_le_53; lia).
  replace (Zpos a + 1) with (Zpos (a + 1)) by lia.
  assert (Ha1 : Zpos (digits2_pos (a + 1)) <= 53) by (apply digits2_pos_le_53; lia).
  rewrite add_spec, !Prim2SF_Z2F, Prim2SF_one by assumption.
  unfold canon at 1 2. cbn [digits2_pos]. unfold SF64add, SFadd.
  set (d := Zpos (digits2_pos a)) in *.
  assert (Hd : 1 <= d) by (unfold d; lia).
  replace (Z.min (d - 53) (1 - 53)) with (-52) by lia.
  rewrite !shl_align_fst by lia.
  rewrite pshift_add by lia.
  replace (53 - d + (d - 53 - -52)) with 52 by lia.
  replace (1 - 53 - -52) with 0 by lia.
  cbn [cond_Zopp].
  assert (Esum : Zpos (pshift a 52) + Zpos (pshift (pshift 1 (53 - 1)) 0)
                 = Zpos (pshift (a + 1) 52)).
  { rewrite !pshift_value by lia. lia. }
  rewrite Esum.
  cbn [binary_normalize].
  pose proof (binary_round_exact false (a + 1) 52 ltac:(lia) Ha1) as E.
  cbn [Z.opp] in E. rewrite E. reflexivity.
Qed.

Lemma Z2F_zero : Z2F 0 = zero.
Proof. reflexivity. Qed.

Lemma Z2F_succ (m : Z) :
  0 <= m -> m + 1 < 2 ^ 53 -> (Z2F m + 1)%float = Z2F (m + 1).
Proof.
  intros H0 H. destruct m as [|a|a]; [reflexivity| |lia].
  apply Z2F_succ_pos, H.
Qed.

Lemma SFcompare_canon (a b : positive) :
  Zpos (digits2_pos a) <= 53 -> Zpos (digits2_pos b) <= 53 ->
  SFcompare (canon a) (canon b) = Some (Zpos a ?= Zpos b).
Proof.
  intros Ha Hb. unfold canon, SFcompare.
  pose proof (digits2_pos_bounds a) as [La Ua].
  pose proof (digits2_pos_bounds b) as [Lb Ub].
  set (da := Zpos (digits2_pos a)) in *. set (db := Zpos (digits2_pos b)) in *.
  f_equal.
  destruct (Z.compare_spec (da - 53) (db - 53)) as [E|L|G].
  - assert (E' : da = db) by lia. rewrite E'.
    rewrite <- Pos2Z.inj_compare. fold (Pos.compare (pshift a (53 - db)) (pshift b (53 - db))).
    rewrite Pos2Z.inj_compare, !pshift_value by lia.
    rewrite <- (Zmult_compare_compat_r (Zpos a) (Zpos b) (2 ^ (53 - db))).
    2:{ apply Z.lt_gt, Z.pow_pos_nonneg; lia. }
    reflexivity.
  - symmetry. apply Z.compare_lt_iff.
    assert (2 ^ da <= 2 ^ (db - 1)) by (apply Z.pow_le_mono_r; lia). lia.
  - symmetry. apply Z.compare_gt_iff.
    assert (2 ^ db <= 2 ^ (da - 1)) by (apply Z.pow_le_mono_r; lia). lia.
Qed.

Lemma Z2F_nonneg_cases (m : Z) :
  0 <= m < 2 ^ 53 ->
  (m = 0 /\ Prim2SF (Z2F m) = S754_zero false)
  \/ (exists v, m = Zpos v /\ Zpos (digits2_pos v) <= 53
                /\ Prim2SF (Z2F m) = canon v).
Proof.
  intros [H0 H]. destruct m as [|v|v]; [left; split; reflexivity| |lia].
  right. exists v. assert (Zpos (digits2_pos v) <= 53) by (apply digits2_pos_le_53; lia).
  repeat split; [assumption|]. apply Prim2SF_Z2F. assumption.
Qed.

Lemma gt_Z2F (a b : Z) :
  0 <= a < 2 ^ 53 -> 0 <= b < 2 ^ 53 ->
  gt (Z2F a) (Z2F b) = (b <? a).
Proof.
  intros Ha Hb. unfold gt. rewrite ltb_spec. unfold SFltb.
  destruct (Z2F_nonneg_cases a Ha) as [[Ea Sa]|[va [Ea [Da Sa]]]];
  destruct (Z2F_nonneg_cases b Hb) as [[Eb Sb]|[vb [Eb [Db Sb]]]];
  rewrite Sa, Sb; subst a b.
  - reflexivity.
  - reflexivity.
  - reflexivity.
  - rewrite SFcompare_canon by assumption. unfold Z.ltb.
    destruct (Zpos vb ?= Zpos va); reflexivity.
Qed.

Lemma Number_toString_Z2F (k : Z) :
  0 < k < 2 ^ 53 -> Number_toString (Z2F k) = decimal k.
Proof.
  intros [H0 H]. destruct k as [|v|v]; try lia.
  assert (Hd : Zpos (digits2_pos v) <= 53) by (apply digits2_pos_le_53; lia).
  unfold Number_toString. rewrite Prim2SF_Z2F by assumption.
  unfold canon. set (d := Zpos (digits2_pos v)) in *.
  assert (Hd1 : 1 <= d) by (unfold d; lia).
  cbv iota beta. unfold positiveToString.
  rewrite pshift_value by lia.
  assert (Hp : 0 < 2 ^ (53 - d)) by (apply Z.pow_pos_nonneg; lia).
  destruct (Z.leb_spec 0 (d - 53)) as [L|L].
  - replace (53 - d) with 0 by lia. replace (d - 53) with 0 by lia.
    rewrite Z.pow_0_r, !Z.mul_1_r, Z.mod_1_r, Z.div_1_r. cbn [Z.eqb andb].
    destruct (Z.ltb_spec (Zpos v) (2 ^ 53)); [reflexivity|lia].
  - replace (- (d - 53)) with (53 - d) by lia.
    rewrite Z.mod_mul, Z.div_mul by lia. cbn [Z.eqb andb].
    destruct (Z.ltb_spec (Zpos v) (2 ^ 53)); [reflexivity|lia].
Qed.

(** digit strings *)

Lemma isDigit_not_space (c : ascii) : isDigit c = true -> isWhiteSpace c = false.
Proof.
  unfold isDigit, isWhiteSpace. cbv zeta. intros H.
  apply andb_true_iff in H. destruct H as [H1 H2].
  apply N.leb_le in H1. apply N.leb_le in H2.
  repeat match goal with
  | |- context [N.leb ?a ?b] => destruct (N.leb_spec a b)
  | |- context [N.eqb ?a ?b] => destruct (N.eqb_spec a b)
  end; try reflexivity; lia.
Qed.

Lemma isDigit_code (c : ascii) :
  isDigit c = true -> (48 <= N_of_ascii c <= 57)%N.
Proof.
  unfold isDigit. cbv zeta. intros H.
  apply andb_true_iff in H. destruct H as [H1 H2].
  apply N.leb_le in H1. apply N.leb_le in H2. lia.
Qed.

Lemma isDigit_neq (c d : ascii) :
  isDigit c = true -> (N_of_ascii d < 48 \/ 57 < N_of_ascii d)%N ->
  Ascii.eqb c d = false.
Proof.
  intros Hc Hd. apply Ascii.eqb_neq. intros ->.
  apply isDigit_code in Hc. lia.
Qed.

Lemma isDigit_radix10 (c : ascii) : isDigit c = true -> isRadixDigit 10 c = true.
Proof.
  intros H. apply isDigit_code in H. unfold isRadixDigit, digitValue. cbv zeta.
  destruct (Z.leb_spec 48 (Z.of_N (N_of_ascii c))); [|lia].
  destruct (Z.leb_spec (Z.of_N (N_of_ascii c)) 57); [|lia].
  cbn [andb]. apply Z.ltb_lt. lia.
Qed.

Lemma spanDigits_all (s : string) :
  JsString.forallb isDigit s = true -> spanDigits 10 s = (s, EmptyString).
Proof.
  induction s as [|c s IH]; cbn [JsString.forallb spanDigits]; intros H.
  - reflexivity.
  - apply andb_true_iff in H. destruct H as [Hc Hs].
    rewrite (isDigit_radix10 c Hc), (IH Hs). reflexivity.
Qed.

Lemma digitValue_nonneg (c : ascii) : 0 <= digitValue c.
Proof.
  unfold digitValue. cbv zeta.
  repeat match goal with
  | |- context [Z.leb ?a ?b] => destruct (Z.leb_spec a b)
  end; cbn [andb]; lia.
Qed.

Lemma digitsValueFrom_nonneg (R : Z) (s : string) (acc : Z) :
  0 <= R -> 0 <= acc -> 0 <= digitsValueFrom R acc s.
Proof.
  intros HR. revert acc. induction s as [|c s IH]; intros acc H; cbn [digitsValueFrom].
  - assumption.
  - apply IH. pose proof (digitValue_nonneg c). nia.
Qed.

Lemma prefix_0x_digits (x : ascii) (s : string) :
  (N_of_ascii x < 48 \/ 57 < N_of_ascii x)%N ->
  JsString.forallb isDigit s = true ->
  prefix (String "0" (String x EmptyString)) s = false.
Proof.
  intros Hx H. destruct s as [|c [|c2 s]]; cbn [prefix]; try reflexivity.
  - destruct (ascii_dec "0" c); reflexivity.
  - destruct (ascii_dec "0" c); [|reflexivity].
    destruct (ascii_dec x c2) as [->|]; [|reflexivity].
    cbn [JsString.forallb] in H. apply andb_true_iff in H. destruct H as [_ H].
    apply andb_true_iff in H. destruct H as [H _]. apply isDigit_code in H. lia.
Qed.

Lemma parseInt_digits (ds : string) :
  ds <> EmptyString -> JsString.forallb isDigit ds = true ->
  parseInt ds = Z2F (digitsValue 10 ds).
Proof.
  intros Hne Hall. unfold parseInt.
  destruct ds as [|c s]; [congruence|].
  pose proof Hall as Hall'. cbn [JsString.forallb] in Hall'.
  apply andb_true_iff in Hall'. destruct Hall' as [Hc Hs].
  cbn [trimStart]. rewrite (isDigit_not_space c Hc).
  cbn [splitSign].
  rewrite (isDigit_neq c "-" Hc) by (cbn; lia).
  rewrite (isDigit_neq c "+" Hc) by (cbn; lia).
  change "0x"%string with (String "0" (String "x" EmptyString)).
  change "0X"%string with (String "0" (String "X" EmptyString)).
  rewrite !prefix_0x_digits by (try assumption; cbn; lia).
  cbn [orb]. rewrite (spanDigits_all _ Hall).
  unfold Z2F.
  pose proof (digitsValueFrom_nonneg 10 (String c s) 0 ltac:(lia) ltac:(lia)) as Hv.
  fold (digitsValue 10 (String c s)) in Hv.
  destruct (Z.ltb_spec (digitsValue 10 (String c s)) 0); [lia|].
  rewrite Z.abs_eq by assumption. reflexivity.
Qed.

Lemma replace_prefix (pat rep s : string) :
  prefix pat s = true -> replace pat rep s = (rep ++ drop (String.length pat) s)%string.
Proof. intros H. destruct s; cbn [replace]; rewrite H; reflexivity. Qed.

Lemma wellFormedId_parse (pre id : string) :
  wellFormedId pre id = true ->
  parseInt (replace pre EmptyString id) = Z2F (idSuffix pre id)
  /\ 0 <= idSuffix pre id.
Proof.
  unfold wellFormedId, idSuffix. intros H.
  apply andb_true_iff in H. destruct H as [H Hd].
  apply andb_true_iff in H. destruct H as [Hp Hn].
  rewrite replace_prefix by assumption. cbn [append]. split.
  - apply parseInt_digits; [|assumption].
    intros E. rewrite E in Hn. discriminate.
  - apply digitsValueFrom_nonneg; lia.
Qed.

Lemma fold_idStep_wellFormed (pre : string) (ids : list string) (m : Z) :
  0 <= m < 2 ^ 53 - 1 ->
  Forall (fun id => wellFormedId pre id = true /\ idSuffix pre id < 2 ^ 53 - 1) ids ->
  fold_left (idStep pre) ids (Z2F m) = Z2F (Z.max m (maxSuffix pre ids))
  /\ 0 <= maxSuffix pre ids < 2 ^ 53 - 1.
Proof.
  intros Hm Hall. revert m Hm.
  induction Hall as [|id ids [Hwf Hlt] Hall IH]; intros m Hm; cbn [fold_left maxSuffix fold_right].
  - split; [f_equal; lia | lia].
  - fold (maxSuffix pre ids).
    destruct (wellFormedId_parse pre id Hwf) as [Hp H0].
    unfold idStep at 2. cbv zeta. rewrite Hp, gt_Z2F by lia.
    destruct (Z.ltb_spec m (idSuffix pre id)) as [L|L].
    + destruct (IH (idSuffix pre id) ltac:(lia)) as [E B]. rewrite E. split; [f_equal; lia | lia].
    + destruct (IH m Hm) as [E B]. rewrite E. split; [f_equal; lia | lia].
Qed.

Lemma nextIdFrom_wellFormed (pre : string) (ids : list string) :
  Forall (fun id => wellFormedId pre id = true /\ idSuffix pre id < 2 ^ 53 - 1) ids ->
  nextIdFrom pre ids = nextId_spec pre ids.
Proof.
  intros Hall. unfold nextIdFrom, nextId_spec. cbv zeta.
  change zero with (Z2F 0).
  destruct (fold_idStep_wellFormed pre ids 0 ltac:(lia) Hall) as [E B].
  rewrite E, Z.max_r by lia.
  rewrite Z2F_succ by lia. rewrite Number_toString_Z2F by lia. reflexivity.
Qed.

Lemma fold_left_map {A B C : Type} (f : A -> B -> A) (g : C -> B) (l : list C) (a : A) :
  fold_left f (map g l) a = fold_left (fun a x => f a (g x)) l a.
Proof. revert a. induction l as [|x l IH]; intros a; cbn; [reflexivity|apply IH]. Qed.

Lemma generateParticipantId_nextIdFrom (st : State) :
  generateParticipantId st = nextIdFrom "P" (map p_id (getParticipants st)).
Proof. unfold generateParticipantId, nextIdFrom. cbv zeta. rewrite fold_left_map. reflexivity. Qed.

Lemma generateExpenseId_nextIdFrom (st : State) :
  generateExpenseId st = nextIdFrom "EXP" (map e_id (getExpenses st)).
Proof. unfold generateExpenseId, nextIdFrom. cbv zeta. rewrite fold_left_map. reflexivity. Qed.

Lemma is_nan_Prim2SF (x : float) : is_nan x = true -> Prim2SF x = S754_nan.
Proof.
  unfold is_nan. rewrite eqb_spec. unfold SFeqb, SFcompare.
  destruct (Prim2SF x) as [s|s| |s m e]; try (destruct s); cbn; try discriminate; try reflexivity.
  all: rewrite Z.compare_refl, ?Pos.compare_cont_refl; cbn; discriminate.
Qed.

Lemma gt_nan_l (x acc : float) : is_nan x = true -> gt x acc = false.
Proof.
  intros H. unfold gt. rewrite ltb_spec, (is_nan_Prim2SF x H).
  unfold SFltb, SFcompare. destruct (Prim2SF acc); reflexivity.
Qed.

Lemma idStep_nan (pre : string) (acc : float) (id : string) :
  is_nan (parseInt (replace pre EmptyString id)) = true -> idStep pre acc id = acc.
Proof. intros H. unfold idStep. cbv zeta. rewrite gt_nan_l by assumption. reflexivity. Qed.



Lemma getParticipants_saveParticipants (ps : list Participant) (st : State) :
  getParticipants (saveParticipants ps st) = map json_participant ps.
Proof. reflexivity. Qed.

Lemma map_p_id_json (ps : list Participant) :
  map p_id (map json_participant ps) = map p_id ps.
Proof. rewrite map_map. apply map_ext. reflexivity. Qed.

Lemma isRadixDigit_10 (c : ascii) : isRadixDigit 10 c = isDigit c.
Proof.
  unfold isRadixDigit, digitValue, isDigit. cbv zeta.
  pose proof (N2Z.is_nonneg (N_of_ascii c)).
  destruct (N.leb_spec 48 (N_of_ascii c)); destruct (N.leb_spec (N_of_ascii c) 57);
    destruct (Z.leb_spec 48 (Z.of_N (N_of_ascii c)));
    destruct (Z.leb_spec (Z.of_N (N_of_ascii c)) 57); try lia; cbn [andb].
  - apply Z.ltb_lt. lia.
  - repeat match goal with
           | |- context [Z.leb ?a ?b] => destruct (Z.leb_spec a b)
           end; cbn [andb]; apply Z.ltb_ge; lia.
  - repeat match goal with
           | |- context [Z.leb ?a ?b] => destruct (Z.leb_spec a b)
           end; cbn [andb]; apply Z.ltb_ge; lia.
Qed.

Lemma spanDigits_leading (s : string) : fst (spanDigits 10 s) = leadingDigits s.
Proof.
  induction s as [|c s IH]; cbn [spanDigits leadingDigits]; [reflexivity|].
  rewrite isRadixDigit_10. destruct (isDigit c); [|reflexivity].
  destruct (spanDigits 10 s) as [d rest]. cbn [fst] in *. rewrite IH. reflexivity.
Qed.

Lemma parseInt_plain (s : string) :
  plainStart s = true ->
  parseInt s = match leadingDigits s with
               | EmptyString => nan
               | _ => Z2F (leadingValue s)
               end.
Proof.
  intros H. destruct s as [|c s]; [reflexivity|].
  cbn [plainStart] in H.
  apply andb_true_iff in H. destruct H as [H H4].
  apply andb_true_iff in H. destruct H as [H H3].
  apply andb_true_iff in H. destruct H as [H1 H2].
  apply negb_true_iff in H1, H2, H3, H4.
  unfold parseInt. cbn [trimStart]. rewrite H1. cbn [splitSign]. rewrite H2, H3, H4.
  pose proof (spanDigits_leading (String c s)) as E.
  destruct (spanDigits 10 (String c s)) as [ds rest]. cbn [fst] in E.
  unfold leadingValue. rewrite <- E.
  destruct ds as [|d ds]; [reflexivity|].
  unfold Z2F.
  pose proof (digitsValueFrom_nonneg 10 (String d ds) 0 ltac:(lia) ltac:(lia)) as Hv.
  fold (digitsValue 10 (String d ds)) in Hv.
  destruct (Z.ltb_spec (digitsValue 10 (String d ds)) 0); [lia|].
  rewrite Z.abs_eq by assumption. reflexivity.
Qed.

Lemma leadingValue_nonneg (s : string) : 0 <= leadingValue s.
Proof. apply digitsValueFrom_nonneg; lia. Qed.

Lemma fold_idStep_readable (pre : string) (ids : list string) (m : Z) :
  0 <= m < 2 ^ 53 - 1 ->
  Forall (readableId pre) ids ->
  fold_left (idStep pre) ids (Z2F m) = Z2F (Z.max m (maxLeading pre ids))
  /\ 0 <= maxLeading pre ids < 2 ^ 53 - 1.
Proof.
  intros Hm Hall. revert m Hm.
  induction Hall as [|id ids [Hp Hlt] Hall IH]; intros m Hm;
    cbn [fold_left maxLeading fold_right].
  - split; [f_equal; lia | lia].
  - fold (maxLeading pre ids).
    pose proof (leadingValue_nonneg (suffixOf pre id)) as H0.
    pose proof (parseInt_plain _ Hp) as E. unfold suffixOf in E.
    destruct (leadingDigits (replace pre EmptyString id)) eqn:D.
    + rewrite idStep_nan by (rewrite E; reflexivity).
      assert (Z0 : leadingValue (suffixOf pre id) = 0).
      { unfold leadingValue, suffixOf. rewrite D. reflexivity. }
      destruct (IH m Hm) as [F B]. rewrite F, Z0. split; [f_equal; lia | lia].
    + unfold idStep at 2. cbv zeta. rewrite E.
      fold (suffixOf pre id). rewrite gt_Z2F by lia.
      destruct (Z.ltb_spec m (leadingValue (suffixOf pre id))) as [L|L].
      * destruct (IH (leadingValue (suffixOf pre id)) ltac:(lia)) as [F B].
        rewrite F. split; [f_equal; lia | lia].
      * destruct (IH m Hm) as [F B]. rewrite F. split; [f_equal; lia | lia].
Qed.

Lemma nextIdFrom_readable (pre : string) (ids : list string) :
  Forall (readableId pre) ids ->
  nextIdFrom pre ids = pre ++ padStart 3 "0" (decimal (maxLeading pre ids + 1)).
Proof.
  intros Hall. unfold nextIdFrom. cbv zeta.
  change zero with (Z2F 0).
  destruct (fold_idStep_readable pre ids 0 ltac:(lia) Hall) as [E B].
  rewrite E, Z.max_r by lia.
  rewrite Z2F_succ by lia. rewrite Number_toString_Z2F by lia. reflexivity.
Qed.

(** C5.  As amended: when the suffix of every id (the id without its first
    prefix) starts neither with white space, a sign nor [0x], and its
    leading decimal digits have a value below [2 ^ 53 - 1], the generated
    id is the prefix followed by the greatest value of those leading digits
    plus one, padded to three digits.  A suffix that starts with no digit
    (as in [TEST001], [P] or [Pabc]) counts as 0; a suffix that starts with
    digits and goes on with other characters counts as its leading digits. *)
Theorem generated_id_reads_leading_digits :
  (forall st,
      Forall (fun p => readableId "P" (p_id p)) (getParticipants st) ->
      generateParticipantId st
      = "P" ++ padStart 3 "0"
                 (decimal (maxLeading "P" (map p_id (getParticipants st)) + 1)))
  /\ (forall st,
      Forall (fun e => readableId "EXP" (e_id e)) (getExpenses st) ->
      generateExpenseId st
      = "EXP" ++ padStart 3 "0"
                   (decimal (maxLeading "EXP" (map e_id (getExpenses st)) + 1))).
Proof.
  split.
  - intros st H. rewrite generateParticipantId_nextIdFrom.
    apply nextIdFrom_readable. apply Forall_map. exact H.
  - intros st H. rewrite generateExpenseId_nextIdFrom.
    apply nextIdFrom_readable. apply Forall_map. exact H.
Qed.

Lemma generated_id_reads_leading_digits_witness :
  generateParticipantId
    (stateOfParticipants [sampleParticipant "P004" "a@x.org" "Active";
                          sampleParticipant "TEST001" "test@example.com" "Active";
                          sampleParticipant "Pabc" "b@x.org" "Active"])
  = "P005".
Proof.
  rewrite (proj1 generated_id_reads_leading_digits
             (stateOfParticipants
                [sampleParticipant "P004" "a@x.org" "Active";
                 sampleParticipant "TEST001" "test@example.com" "Active";
                 sampleParticipant "Pabc" "b@x.org" "Active"])).
  - vm_compute. reflexivity.
  - repeat constructor; vm_compute; reflexivity.
Defined.

Lemma generateParticipantId_counts_P12abc :
  wellFormedId "P" "P12abc" = false
  /\ is_nan (parseInt (replace "P" EmptyString "P12abc")) = false
  /\ generateParticipantId
       (stateOfParticipants [sampleParticipant "P004" "a@x.org" "Active";
                             sampleParticipant "P12abc" "b@x.org" "Active"])
     = "P013"
  /\ generateParticipantId
       (stateOfParticipants [sampleParticipant "P004" "a@x.org" "Active";
                             sampleParticipant "P0" "b@x.org" "Active"])
     = "P005".
Proof. vm_compute. repeat split. Qed.

(** C4.  As amended: when every id is the prefix followed by decimal
    digits whose value is below [2 ^ 53 - 1], the generated id is the
    prefix followed by the greatest suffix plus one, padded to three digits
    ([generateParticipantId] with [P], [generateExpenseId] with [EXP]); over
    no participant it is [P001], over [P001] and [P005] it is [P006]. *)
Theorem nextId_is_max_plus_one :
  (forall st,
      Forall (fun p => wellFormedId "P" (p_id p) = true
                       /\ idSuffix "P" (p_id p) < 2 ^ 53 - 1)
             (getParticipants st) ->
      generateParticipantId st = nextId_spec "P" (map p_id (getParticipants st)))
  /\ (forall st,
      Forall (fun e => wellFormedId "EXP" (e_id e) = true
                       /\ idSuffix "EXP" (e_id e) < 2 ^ 53 - 1)
             (getExpenses st) ->
      generateExpenseId st = nextId_spec "EXP" (map e_id (getExpenses st)))
  /\ (forall st, getParticipants st = [] -> generateParticipantId st = "P001")
  /\ (forall st p1 p5,
      getParticipants st = [p1; p5] -> p_id p1 = "P001" -> p_id p5 = "P005" ->
      generateParticipantId st = "P006").
Proof.
  repeat split.
  - intros st H. rewrite generateParticipantId_nextIdFrom.
    apply nextIdFrom_wellFormed. apply Forall_map. exact H.
  - intros st H. rewrite generateExpenseId_nextIdFrom.
    apply nextIdFrom_wellFormed. apply Forall_map. exact H.
  - intros st H. rewrite generateParticipantId_nextIdFrom, H. vm_compute. reflexivity.
  - intros st p1 p5 H H1 H5. rewrite generateParticipantId_nextIdFrom, H.
    cbn [map]. rewrite H1, H5. vm_compute. reflexivity.
Qed.

Lemma existsb_email_In (email : string) (ps : list Participant) :
  In email (map p_email ps) ->
  existsb (fun p => String.eqb (p_email p) email) ps = true.
Proof.
  intros Hin. apply in_map_iff in Hin. destruct Hin as [p [Hp Hin]].
  apply existsb_exists. exists p. split; [assumption|].
  rewrite Hp. apply String.eqb_refl.
Qed.

(** C3.  When the submitted email is the email of a stored participant,
    [addParticipant] ends with an error notification and leaves the store
    and its mirror as they were. *)
Theorem addParticipant_rejects_known_email
  (now : string) (form : ParticipantForm) (st : State) (email : string) :
  f_email form = Some email ->
  In email (map p_email (getParticipants st)) ->
  exists message,
    addParticipant now form st = (st, showNotification message error).
Proof.
  intros Hemail Hin. unfold addParticipant. rewrite Hemail. cbn [orEmpty].
  rewrite (existsb_email_In email _ Hin).
  repeat match goal with
         | |- context [if ?b then _ else _] => destruct b
         end; eexists; reflexivity.
Qed.


Lemma agreementUpTo_200 : agreementUpTo 200 = true.
Proof. vm_compute. reflexivity. Qed.

Lemma agreesWithRounded_small (c n : nat) :
  (1 <= n <= 200)%nat -> (c <= n)%nat ->
  agreesWithRounded (Z.of_nat c) (Z.of_nat n) = true.
Proof.
  intros Hn Hc. pose proof agreementUpTo_200 as H. unfold agreementUpTo in H.
  rewrite forallb_forall in H. specialize (H n).
  rewrite forallb_forall in H. apply H; apply in_seq; lia.
Qed.

Lemma calculateSuccessRate_counts (st : State) :
  getParticipants st <> [] ->
  calculateSuccessRate st
  = successRateOf (completedCount (getParticipants st))
                  (Z.of_nat (List.length (getParticipants st))).
Proof.
  intros H. unfold calculateSuccessRate. cbv zeta.
  destruct (getParticipants st) as [|p ps]; [congruence|]. reflexivity.
Qed.

(** C6.  As amended: [calculateSuccessRate] is 0 for no participant and
    otherwise [Math.round] of the binary64 product [(completed / total) *
    100]; for up to 200 participants this is the exact percentage rounded
    to the nearest integer whenever that percentage is not half-way between
    two integers; one completed and one active participant give 50. *)
Theorem calculateSuccessRate_rounds_double_product :
  (forall st, getParticipants st = [] -> calculateSuccessRate st = zero)
  /\ (forall st, getParticipants st <> [] ->
        calculateSuccessRate st
        = Math_round
            ((Z2F (completedCount (getParticipants st))
              / Z2F (Z.of_nat (List.length (getParticipants st)))) * 100)%float)
  /\ (forall st,
        getParticipants st <> [] ->
        (List.length (getParticipants st) <= 200)%nat ->
        halfwayPercent (completedCount (getParticipants st))
                       (Z.of_nat (List.length (getParticipants st))) = false ->
        calculateSuccessRate st
        = Z2F (roundedPercent (completedCount (getParticipants st))
                              (Z.of_nat (List.length (getParticipants st)))))
  /\ (forall st p1 p2,
        getParticipants st = [p1; p2] ->
        p_status p1 = "Completed" -> p_status p2 = "Active" ->
        calculateSuccessRate st = 50%float).
Proof.
  split; [|split; [|split]].
  - intros st H. unfold calculateSuccessRate. rewrite H. reflexivity.
  - intros st H. apply calculateSuccessRate_counts, H.
  - intros st Hne Hlen Hhalf. rewrite calculateSuccessRate_counts by assumption.
    set (ps := getParticipants st) in *.
    assert (Hc : (List.length (filter (fun p => String.eqb (p_status p) "Completed") ps)
                  <= List.length ps)%nat) by apply filter_length_le.
    assert (Hn : (1 <= List.length ps)%nat).
    { destruct ps; [congruence|cbn; lia]. }
    pose proof (agreesWithRounded_small _ _ (conj Hn Hlen) Hc) as A.
    unfold agreesWithRounded in A. fold (completedCount ps) in A.
    rewrite Hhalf in A. cbn [orb] in A.
    apply FloatAxioms.Leibniz.eqb_spec in A. exact A.
  - intros st p1 p2 H H1 H2. unfold calculateSuccessRate. rewrite H.
    cbn [List.length Nat.eqb filter]. rewrite H1, H2. vm_compute. reflexivity.
Qed.

Lemma calculateSuccessRate_rounds_double_product_witness :
  calculateSuccessRate (stateOfParticipants (cohort 1 3)) = Z2F 33.
Proof.
  apply (proj1 (proj2 (proj2 calculateSuccessRate_rounds_double_product))).
  - discriminate.
  - vm_compute. lia.
  - vm_compute. reflexivity.
Defined.

Lemma calculateSuccessRate_23_of_40 :
  calculateSuccessRate (stateOfParticipants (cohort 23 40)) = 57%float
  /\ completedCount (getParticipants (stateOfParticipants (cohort 23 40))) = 23
  /\ List.length (getParticipants (stateOfParticipants (cohort 23 40))) = 40%nat
  /\ roundedPercent 23 40 = 58.
Proof. vm_compute. repeat split. Qed.











(** C9.  The file [downloadCSV] produces is the line of headers followed by
    one line per record, each the cells of the record joined by commas, one
    cell per header; the cell of a field depends on the record and the
    header only, and it is empty whenever the value of the field is falsy:
    0, -0, NaN, false, the empty string, null, or undefined for a property
    the record does not have. *)
Theorem downloadCSV_falsy_fields_are_empty_cells :
  (exists cell : Obj -> string -> string,
      (forall row header,
          ToBoolean (getProp row header) = false ->
          cell row header = EmptyString)
      /\ (forall first rest filename,
            x_file (downloadCSV (first :: rest) filename)
            = Some (filename,
                    join newline
                      (join "," (Object_keys first)
                       :: map (fun row =>
                                 join "," (map (cell row) (Object_keys first)))
                              (first :: rest)))))
  /\ (forall v,
        In v [VNum zero; VNum neg_zero; VNum nan; VBool false;
              VStr EmptyString; VNull; VUndefined] ->
        ToBoolean v = false).
Proof.
  split.
  - exists (fun row header => elementText (csvCell row header)). split.
    + intros row header H. unfold csvCell. rewrite H. reflexivity.
    + intros first rest filename. unfold downloadCSV, csvContent. cbv zeta.
      cbn [x_file]. do 4 f_equal. apply map_ext. intros row.
      unfold csvRow, joinValues. rewrite map_map. reflexivity.
  - intros v H. cbn [In] in H.
    repeat (destruct H as [<-|H]; [reflexivity|]). destruct H.
Qed.

Lemma downloadCSV_falsy_fields_are_empty_cells_witness :
  exists c,
    x_file (downloadCSV [[("Category", VStr "Travel"); ("Spent", VNum zero);
                          ("Paid", VBool false)]] "report.csv")
    = Some ("report.csv", "Category,Spent,Paid" ++ newline ++ c ++ ",,").
Proof.
  destruct (proj1 downloadCSV_falsy_fields_are_empty_cells) as [cell [Hf Hd]].
  exists (cell [("Category", VStr "Travel"); ("Spent", VNum zero);
                ("Paid", VBool false)] "Category").
  rewrite Hd. cbn [Object_keys map fst].
  rewrite (Hf _ "Spent") by reflexivity.
  rewrite (Hf _ "Paid") by reflexivity.
  reflexivity.
Defined.





(** C1.  For the budget item Training of amount 0 and one Training expense
    of 400, the monthly report has the utilisation [Infinity%], and the
    exported file carries it. *)
Theorem generateMonthlyReport_zero_budget_gives_Infinity :
  let st := stateOfBudget [sampleBudgetItem "Training" 0]
                          [sampleExpense "EXP001" "Training" 400] in
  map (fun row => getProp row "Utilization") (reportData st)
    = [VStr "Infinity%"]
  /\ x_file (generateMonthlyReport sampleNow st)
     = Some ("monthly-budget-report-2025-03-04.csv",
             "Category,Budget,Spent,Remaining,Utilization" ++ newline
             ++ "Training,,400,-400,Infinity%").
Proof. vm_compute. split; reflexivity. Qed.

Lemma addParticipant_rejects_known_email_witness :
  exists message,
    addParticipant sampleNow (sampleForm "Sipho" "member2@example.org")
      (stateOfParticipants (cohort 1 2))
    = (stateOfParticipants (cohort 1 2), showNotification message error).
Proof.
  apply (addParticipant_rejects_known_email sampleNow
           (sampleForm "Sipho" "member2@example.org")
           (stateOfParticipants (cohort 1 2)) "member2@example.org").
  - reflexivity.
  - vm_compute. right. left. reflexivity.
Defined.

Lemma nextId_is_max_plus_one_witness :
  generateParticipantId
    (stateOfParticipants [sampleParticipant "P001" "a@example.org" "Active";
                          sampleParticipant "P005" "b@example.org" "Active"])
  = nextId_spec "P" ["P001"; "P005"].
Proof.
  apply (proj1 nextId_is_max_plus_one
           (stateOfParticipants
              [sampleParticipant "P001" "a@example.org" "Active";
               sampleParticipant "P005" "b@example.org" "Active"])).
  repeat constructor; vm_compute; reflexivity.
Defined.

Lemma generateParticipantId_repeats_2_pow_53 :
  let st := stateOfParticipants
              [sampleParticipant "P9007199254740992" "a@example.org" "Active"] in
  generateParticipantId st = "P9007199254740992"
  /\ nextId_spec "P" (map p_id (getParticipants st)) = "P9007199254740993"
  /\ wellFormedId "P" "P9007199254740992" = true.
Proof. vm_compute. repeat split. Qed.

(** ** Persistence *)

Lemma json_num_idempotent (n : NumField) : json_num (json_num n) = json_num n.
Proof.
  destruct n as [x|]; [|reflexivity]. unfold json_num.
  destruct (is_nan x || is_infinity x) eqn:E; [reflexivity|].
  destruct (is_zero x) eqn:Z; [reflexivity|].
  rewrite E, Z. reflexivity.
Qed.

Lemma json_participant_idempotent (p : Participant) :
  json_participant (json_participant p) = json_participant p.
Proof. unfold json_participant. cbn. rewrite !json_num_idempotent. reflexivity. Qed.

Lemma json_budgetItem_idempotent (b : BudgetItem) :
  json_budgetItem (json_budgetItem b) = json_budgetItem b.
Proof. unfold json_budgetItem. cbn. rewrite !json_num_idempotent. reflexivity. Qed.

Lemma json_expense_idempotent (e : Expense) :
  json_expense (json_expense e) = json_expense e.
Proof. unfold json_expense. cbn. rewrite !json_num_idempotent. reflexivity. Qed.

Lemma map_idempotent {A : Type} (f : A -> A) (l : list A) :
  (forall x, f (f x) = f x) -> map f (map f l) = map f l.
Proof. intros H. rewrite map_map. apply map_ext. exact H. Qed.

(** X1.  Saving is stable: what [getParticipants], [getBudgetItems] or
    [getExpenses] loads after a save is loaded again, unchanged, when it is
    saved back. *)
Theorem save_of_loaded_is_stable (st : State)
  (ps : list Participant) (bs : list BudgetItem) (es : list Expense) :
  getParticipants
    (saveParticipants (getParticipants (saveParticipants ps st))
       (saveParticipants ps st))
  = getParticipants (saveParticipants ps st)
  /\ getBudgetItems
       (saveBudgetItems (getBudgetItems (saveBudgetItems bs st))
          (saveBudgetItems bs st))
     = getBudgetItems (saveBudgetItems bs st)
  /\ getExpenses
       (saveExpenses (getExpenses (saveExpenses es st)) (saveExpenses es st))
     = getExpenses (saveExpenses es st).
Proof.
  repeat split.
  - exact (map_idempotent json_participant ps json_participant_idempotent).
  - exact (map_idempotent json_budgetItem bs json_budgetItem_idempotent).
  - exact (map_idempotent json_expense es json_expense_idempotent).
Qed.

(** ** Errors leave the state alone *)

Lemma addParticipant_error_changes_nothing
  (now : string) (form : ParticipantForm) (st : State) :
  n_type (snd (addParticipant now form st)) = error ->
  fst (addParticipant now form st) = st.
Proof.
  unfold addParticipant. cbv zeta.
  repeat match goal with
         | |- context [if ?b then _ else _] => destruct b
         end; cbn [fst snd n_type showNotification]; intros H;
    try reflexivity; discriminate H.
Qed.

Lemma addBudgetItem_error_changes_nothing
  (now : string) (form : BudgetForm) (st : State) :
  n_type (snd (addBudgetItem now form st)) = error ->
  fst (addBudgetItem now form st) = st.
Proof.
  unfold addBudgetItem. cbv zeta.
  repeat match goal with
         | |- context [if ?b then _ else _] => destruct b
         end; cbn [fst snd n_type showNotification]; intros H;
    try reflexivity; discriminate H.
Qed.

(** ** What [addParticipant] can do *)

Lemma existsb_email_false (email : string) (ps : list Participant) :
  existsb (fun p => String.eqb (p_email p) email) ps = false ->
  ~ In email (map p_email ps).
Proof.
  intros H Hin. rewrite (existsb_email_In email ps Hin) in H. discriminate.
Qed.

Lemma addParticipant_cases (now : string) (form : ParticipantForm) (st : State) :
  (fst (addParticipant now form st) = st
   /\ n_type (snd (addParticipant now form st)) = error)
  \/ (exists p,
        fst (addParticipant now form st)
        = saveParticipants (getParticipants st ++ [p]) st
        /\ n_type (snd (addParticipant now form st)) = success
        /\ f_email form = Some (p_email p)
        /\ isValidEmail (p_email p) = true
        /\ ~ In (p_email p) (map p_email (getParticipants st))
        /\ p_id p = generateParticipantId st).
Proof.
  unfold addParticipant. cbv zeta.
  destruct (_ && _); [left; split; reflexivity|].
  destruct (_ || _) eqn:Em; [left; split; reflexivity|].
  destruct (isValidEmail _) eqn:Ev; cbn [negb]; [|left; split; reflexivity].
  destruct (existsb _ _) eqn:Ex; [left; split; reflexivity|].
  right. eexists. cbn [fst snd n_type showNotification p_email p_id].
  split; [reflexivity|]. split; [reflexivity|].
  apply existsb_email_false in Ex.
  destruct (f_email form) as [email|]; cbn [orEmpty] in *.
  - repeat split; assumption.
  - cbn in Em. rewrite !orb_true_r in Em. cbn in Em. destruct (missing (f_name form)); discriminate.
Qed.

Lemma map_p_email_json (ps : list Participant) :
  map p_email (map json_participant ps) = map p_email ps.
Proof. rewrite map_map. apply map_ext. reflexivity. Qed.

(** X3.  [addParticipant] keeps the emails of the stored participants
    pairwise different. *)
Theorem addParticipant_keeps_emails_distinct
  (now : string) (form : ParticipantForm) (st : State) :
  NoDup (map p_email (getParticipants st)) ->
  NoDup (map p_email (getParticipants (fst (addParticipant now form st)))).
Proof.
  intros H. destruct (addParticipant_cases now form st) as [[E _]|[p [E [_ [_ [_ [Hn _]]]]]]].
  - rewrite E. exact H.
  - rewrite E, getParticipants_saveParticipants, map_p_email_json, map_app.
    cbn [map]. apply NoDup_app; [exact H| repeat constructor; intros [] | ].
    intros e He [<-|[]]. exact (Hn He).
Qed.

(** ** Decimal numerals read back *)

Lemma digitsValueFrom_of_uint_acc (d : Decimal.uint) (acc : positive) (v : Z) :
  v = Zpos acc ->
  digitsValueFrom 10 v (NilEmpty.string_of_uint d)
  = Zpos (Pos.of_uint_acc d acc).
Proof.
  revert acc v.
  induction d; intros acc v Hv;
    cbn [NilEmpty.string_of_uint digitsValueFrom Pos.of_uint_acc];
    [exact Hv | apply IHd; subst v; vm_compute digitValue; lia ..].
Qed.

Lemma digitsValueFrom_of_uint (d : Decimal.uint) :
  digitsValueFrom 10 0 (NilEmpty.string_of_uint d) = Z.of_N (Pos.of_uint d).
Proof.
  induction d; cbn [NilEmpty.string_of_uint digitsValueFrom Pos.of_uint];
    [reflexivity | exact IHd
     | apply digitsValueFrom_of_uint_acc; reflexivity ..].
Qed.

Lemma string_of_uint_digits (d : Decimal.uint) :
  JsString.forallb isDigit (NilEmpty.string_of_uint d) = true.
Proof. induction d; cbn; try reflexivity; exact IHd. Qed.

Lemma NilZero_as_NilEmpty (d : Decimal.uint) :
  d <> Decimal.Nil -> NilZero.string_of_uint d = NilEmpty.string_of_uint d.
Proof. destruct d; [congruence|reflexivity..]. Qed.

Lemma N_to_uint_not_Nil (n : N) : N.to_uint n <> Decimal.Nil.
Proof.
  intros E. pose proof (DecimalN.Unsigned.of_to n) as H. rewrite E in H.
  cbn in H. subst n. discriminate E.
Qed.

Lemma decimal_value (n : Z) : 0 <= n -> digitsValue 10 (decimal n) = n.
Proof.
  intros H. unfold decimal, digitsValue.
  rewrite NilZero_as_NilEmpty by apply N_to_uint_not_Nil.
  rewrite digitsValueFrom_of_uint.
  change (Pos.of_uint (N.to_uint (Z.to_N n))) with (N.of_uint (N.to_uint (Z.to_N n))).
  rewrite DecimalN.Unsigned.of_to. lia.
Qed.

Lemma decimal_digits (n : Z) : JsString.forallb isDigit (decimal n) = true.
Proof.
  unfold decimal. rewrite NilZero_as_NilEmpty by apply N_to_uint_not_Nil.
  apply string_of_uint_digits.
Qed.

Lemma decimal_nonempty (n : Z) : decimal n <> EmptyString.
Proof.
  unfold decimal. rewrite NilZero_as_NilEmpty by apply N_to_uint_not_Nil.
  pose proof (N_to_uint_not_Nil (Z.to_N n)) as H.
  destruct (N.to_uint (Z.to_N n)); [congruence| discriminate..].
Qed.

(** zeros in front *)
Lemma fillTo_zero (n : nat) (cur : string) :
  JsString.forallb (fun c => Ascii.eqb c "0") cur = true ->
  JsString.forallb (fun c => Ascii.eqb c "0") (fillTo n "0" cur) = true.
Proof.
  revert cur. induction n as [|n IH]; intros cur H; cbn [fillTo]; [reflexivity|].
  destruct cur as [|c cur].
  - cbn [JsString.forallb]. rewrite IH by reflexivity. reflexivity.
  - cbn [JsString.forallb] in *. apply andb_true_iff in H. destruct H as [Hc H].
    rewrite Hc, IH by assumption. reflexivity.
Qed.

Lemma zeros_then_digits (z s : string) (acc : Z) :
  JsString.forallb (fun c => Ascii.eqb c "0") z = true ->
  digitsValueFrom 10 0 (z ++ s) = digitsValueFrom 10 0 s
  /\ (JsString.forallb isDigit s = true -> JsString.forallb isDigit (z ++ s) = true).
Proof.
  induction z as [|c z IH]; intros H; cbn [append]; [split; auto|].
  cbn [JsString.forallb] in H. apply andb_true_iff in H. destruct H as [Hc H].
  apply Ascii.eqb_eq in Hc. subst c. destruct (IH H) as [E D].
  split; [exact E|]. intros Hs. cbn [JsString.forallb]. rewrite (D Hs). reflexivity.
Qed.

Lemma padStart_decimal (n : Z) :
  0 <= n ->
  digitsValue 10 (padStart 3 "0" (decimal n)) = n
  /\ JsString.forallb isDigit (padStart 3 "0" (decimal n)) = true
  /\ padStart 3 "0" (decimal n) <> EmptyString.
Proof.
  intros H. unfold padStart.
  destruct (Nat.leb 3 (String.length (decimal n))).
  - repeat split; [apply decimal_value, H | apply decimal_digits | apply decimal_nonempty].
  - destruct (zeros_then_digits
                (fillTo (3 - String.length (decimal n)) "0" "0") (decimal n) 0
                (fillTo_zero _ "0" eq_refl)) as [E D].
    repeat split.
    + unfold digitsValue. rewrite E. apply decimal_value, H.
    + apply D, decimal_digits.
    + intros C. destruct (fillTo _ _ _); cbn [append] in C; [|discriminate].
      exact (decimal_nonempty n C).
Qed.

Lemma prefix_append (p s : string) : prefix p (p ++ s) = true.
Proof.
  induction p as [|c p IH]; cbn [append prefix].
  - destruct s; reflexivity.
  - destruct (ascii_dec c c); [exact IH|congruence].
Qed.

Lemma drop_append (p s : string) : drop (String.length p) (p ++ s) = s.
Proof. induction p as [|c p IH]; cbn; [destruct s; reflexivity|exact IH]. Qed.

Lemma nextId_spec_wellFormed (pre : string) (ids : list string) :
  0 <= maxSuffix pre ids ->
  wellFormedId pre (nextId_spec pre ids) = true
  /\ idSuffix pre (nextId_spec pre ids) = maxSuffix pre ids + 1.
Proof.
  intros H. unfold wellFormedId, idSuffix, nextId_spec.
  rewrite prefix_append, drop_append.
  destruct (padStart_decimal (maxSuffix pre ids + 1) ltac:(lia)) as [V [D N]].
  rewrite V, D. split; [|reflexivity].
  destruct (padStart 3 "0" (decimal (maxSuffix pre ids + 1))); [congruence|reflexivity].
Qed.

Lemma maxSuffix_ge (pre : string) (ids : list string) (id : string) :
  In id ids -> idSuffix pre id <= maxSuffix pre ids.
Proof.
  induction ids as [|x ids IH]; intros H; [destruct H|].
  cbn [maxSuffix fold_right]. fold (maxSuffix pre ids).
  destruct H as [<-|H]; [lia|]. specialize (IH H). lia.
Qed.

Lemma maxSuffix_nonneg (pre : string) (ids : list string) : 0 <= maxSuffix pre ids.
Proof.
  induction ids as [|x ids IH]; cbn [maxSuffix fold_right]; [lia|].
  fold (maxSuffix pre ids). lia.
Qed.

Lemma nextIdFrom_fresh (pre : string) (ids : list string) :
  Forall (fun id => wellFormedId pre id = true /\ idSuffix pre id < 2 ^ 53 - 1) ids ->
  ~ In (nextIdFrom pre ids) ids
  /\ wellFormedId pre (nextIdFrom pre ids) = true
  /\ idSuffix pre (nextIdFrom pre ids) = maxSuffix pre ids + 1.
Proof.
  intros H. rewrite (nextIdFrom_wellFormed pre ids H).
  destruct (nextId_spec_wellFormed pre ids (maxSuffix_nonneg pre ids)) as [W S].
  repeat split; try assumption.
  intros Hin. apply (maxSuffix_ge pre) in Hin. lia.
Qed.



(** X5.  Over such ids, [addParticipant] keeps the ids of the stored
    participants pairwise different. *)
Theorem addParticipant_keeps_ids_distinct
  (now : string) (form : ParticipantForm) (st : State) :
  Forall (fun p => wellFormedId "P" (p_id p) = true
                   /\ idSuffix "P" (p_id p) < 2 ^ 53 - 1)
         (getParticipants st) ->
  NoDup (map p_id (getParticipants st)) ->
  NoDup (map p_id (getParticipants (fst (addParticipant now form st)))).
Proof.
  intros Hwf H.
  destruct (addParticipant_cases now form st) as [[E _]|[p [E [_ [_ [_ [_ Hid]]]]]]].
  - rewrite E. exact H.
  - rewrite E, getParticipants_saveParticipants, map_p_id_json, map_app.
    cbn [map]. apply NoDup_app; [exact H| repeat constructor; intros [] | ].
    intros e He [<-|[]]. rewrite Hid, generateParticipantId_nextIdFrom in He.
    apply (proj1 (nextIdFrom_fresh "P" (map p_id (getParticipants st))
                    ltac:(apply Forall_map; exact Hwf))).
    exact He.
Qed.

(** ** The email pattern *)

Lemma emailChar_dot : emailChar "." = true.
Proof. reflexivity. Qed.

Lemma emailChar_not_at (c : ascii) : emailChar c = true -> Ascii.eqb c "@" = false.
Proof.
  unfold emailChar. intros H. apply andb_true_iff in H. destruct H as [_ H].
  destruct (Ascii.eqb c "@"); [discriminate|reflexivity].
Qed.

Lemma matchDomain_spec (seen : bool) (s : string) :
  matchDomain seen s = true <->
  exists b c,
    s = b ++ "." ++ c
    /\ (seen = true \/ b <> EmptyString) /\ c <> EmptyString
    /\ JsString.forallb emailChar b = true
    /\ JsString.forallb emailChar c = true.
Proof.
  revert seen. induction s as [|ch s IH]; intros seen; cbn [matchDomain].
  - split; [discriminate|]. intros [b [c [E _]]]. destruct b; discriminate E.
  - split.
    + intros H. apply andb_true_iff in H. destruct H as [Hch H].
      apply orb_true_iff in H. destruct H as [H|H].
      * repeat (apply andb_true_iff in H; destruct H as [H ?]).
        apply Ascii.eqb_eq in H2. subst ch.
        exists EmptyString, s. repeat split; auto.
        destruct s; [discriminate|congruence].
      * apply IH in H. destruct H as [b [c [E [_ [Hc [Hb Hcc]]]]]].
        exists (String ch b), c. cbn [append JsString.forallb].
        rewrite E, Hch, Hb. repeat split; auto. right. discriminate.
    + intros [b [c [E [Hs [Hc [Hb Hcc]]]]]].
      destruct b as [|bh b]; cbn [append] in E; injection E as -> ->.
      * destruct Hs as [->|Hs]; [|congruence].
        rewrite emailChar_dot, Ascii.eqb_refl, Hcc. cbn [andb].
        destruct c; [congruence|reflexivity].
      * cbn [JsString.forallb] in Hb. apply andb_true_iff in Hb.
        destruct Hb as [Hbh Hb]. rewrite Hbh. cbn [andb].
        apply orb_true_iff. right. apply IH.
        exists b, c. repeat split; auto.
Qed.

Lemma matchLocal_spec (seen : bool) (s : string) :
  matchLocal seen s = true <->
  exists a d,
    s = a ++ "@" ++ d
    /\ (seen = true \/ a <> EmptyString)
    /\ JsString.forallb emailChar a = true
    /\ matchDomain false d = true.
Proof.
  revert seen. induction s as [|ch s IH]; intros seen; cbn [matchLocal].
  - split; [discriminate|]. intros [a [d [E _]]]. destruct a; discriminate E.
  - split.
    + destruct (Ascii.eqb_spec ch "@") as [->|Hne].
      * intros H. apply andb_true_iff in H. destruct H as [Hs Hd].
        exists EmptyString, s. repeat split; auto.
      * intros H. apply andb_true_iff in H. destruct H as [Hch H].
        apply IH in H. destruct H as [a [d [E [_ [Ha Hd]]]]].
        exists (String ch a), d. cbn [append JsString.forallb].
        rewrite E, Hch, Ha. repeat split; auto. right. discriminate.
    + intros [a [d [E [Hs [Ha Hd]]]]].
      destruct a as [|ah a]; cbn [append] in E; injection E as -> ->.
      * rewrite Ascii.eqb_refl. destruct Hs as [->|Hs]; [exact Hd|congruence].
      * cbn [JsString.forallb] in Ha. apply andb_true_iff in Ha.
        destruct Ha as [Hah Ha]. rewrite (emailChar_not_at ah Hah), Hah.
        cbn [andb]. apply IH. exists a, d. repeat split; auto.
Qed.

(** X6.  [isValidEmail] accepts exactly the strings made of a non-empty local
    part, an at sign, a non-empty domain, a point and a non-empty ending,
    none of the three parts holding white space or an at sign. *)
Theorem isValidEmail_shape (email : string) :
  isValidEmail email = true <->
  exists a b c,
    email = a ++ "@" ++ b ++ "." ++ c
    /\ a <> EmptyString /\ b <> EmptyString /\ c <> EmptyString
    /\ JsString.forallb emailChar a = true
    /\ JsString.forallb emailChar b = true
    /\ JsString.forallb emailChar c = true.
Proof.
  unfold isValidEmail. rewrite matchLocal_spec. split.
  - intros [a [d [E [Hs [Ha Hd]]]]]. apply matchDomain_spec in Hd.
    destruct Hd as [b [c [E' [Hb [Hc [Hbb Hcc]]]]]].
    exists a, b, c. subst d. repeat split; auto.
    + destruct Hs; [discriminate|assumption].
    + destruct Hb; [discriminate|assumption].
  - intros [a [b [c [E [Ha [Hb [Hc [Haa [Hbb Hcc]]]]]]]]].
    exists a, (b ++ "." ++ c). repeat split; auto.
    apply matchDomain_spec. exists b, c. repeat split; auto.
Qed.

(** ** CSV cells *)

Lemma undouble_doubleQuotes (s : string) :
  undouble (doubleQuotes s ++ dquoteString) = s.
Proof.
  induction s as [|c s IH]; [reflexivity|].
  cbn [doubleQuotes]. destruct (Ascii.eqb_spec c dquote) as [->|Hne].
  - cbn [append undouble]. rewrite Ascii.eqb_refl, IH. reflexivity.
  - cbn [append undouble]. apply Ascii.eqb_neq in Hne. rewrite Hne, IH. reflexivity.
Qed.

Lemma includes_first (c : ascii) (s : string) :
  includes (String c s) (String c EmptyString) = true.
Proof.
  cbn [includes prefix]. destruct (ascii_dec c c); [|congruence].
  destruct s; reflexivity.
Qed.

(** X7.  The text [downloadCSV] writes for a string field reads back as that
    string when a quoted cell is unquoted and its doubled quotes are
    undoubled. *)
Theorem csvCell_reads_back (row : Obj) (header s : string) :
  getProp row header = VStr s ->
  unquoteCell (elementText (csvCell row header)) = s.
Proof.
  intros H. unfold csvCell. rewrite H. cbn [ToBoolean].
  destruct s as [|c s]; [reflexivity|]. cbn [JsString.truthy].
  destruct (includes (String c s) "," || includes (String c s) dquoteString) eqn:E.
  - cbn [elementText ToString]. unfold dquoteString at 1. cbn [append unquoteCell].
    rewrite Ascii.eqb_refl. apply undouble_doubleQuotes.
  - cbn [elementText ToString unquoteCell].
    destruct (Ascii.eqb_spec c dquote) as [->|_]; [|reflexivity].
    apply orb_false_iff in E. destruct E as [_ E].
    unfold dquoteString in E. rewrite includes_first in E. discriminate.
Qed.

Lemma csvCell_reads_back_witness :
  unquoteCell
    (elementText
       (csvCell [("notes", VStr ("said " ++ dquoteString ++ "yes" ++ dquoteString
                                 ++ ", then left"))] "notes"))
  = "said " ++ dquoteString ++ "yes" ++ dquoteString ++ ", then left".
Proof.
  apply (csvCell_reads_back _ "notes"). reflexivity.
Defined.

(** ** Removing a participant *)






(** ** Marking a participant completed *)





(** ** Theme *)


(** ** Reset *)

(** X12.  After [clearAllData] the three collections load empty, the next
    ids are [P001] and [EXP001], the success rate is 0, and a new page load
    finds the mirror as it was left. *)
Theorem clearAllData_resets_everything (st : State) :
  let st' := clearAllData st in
  getParticipants st' = [] /\ getBudgetItems st' = [] /\ getExpenses st' = []
  /\ generateParticipantId st' = "P001"
  /\ generateExpenseId st' = "EXP001"
  /\ calculateSuccessRate st' = zero
  /\ systemData (scriptStart (localStorage st')) = systemData st'.
Proof.
  cbv zeta. repeat split; vm_compute; reflexivity.
Qed.

(** ** The test participant *)


(** ** Each operation writes its own key only *)

Lemma saveParticipants_frame (ps : list Participant) (st : State) :
  getBudgetItems (saveParticipants ps st) = getBudgetItems st
  /\ getExpenses (saveParticipants ps st) = getExpenses st
  /\ budgetItems (systemData (saveParticipants ps st)) = budgetItems (systemData st)
  /\ expenses (systemData (saveParticipants ps st)) = expenses (systemData st)
  /\ settings (systemData (saveParticipants ps st)) = settings (systemData st)
  /\ getItem settingsKey (localStorage (saveParticipants ps st))
     = getItem settingsKey (localStorage st)
  /\ darkMode (saveParticipants ps st) = darkMode st.
Proof. repeat split. Qed.

Lemma sameFinance_refl (st : State) : sameFinance st st.
Proof. repeat split. Qed.

Lemma sameParticipants_refl (st : State) : sameParticipants st st.
Proof. repeat split. Qed.

(** X14.  [addParticipant], [removeParticipant], [markParticipantCompleted]
    and [addTestParticipant] never change the budget items or the expenses,
    in the store or in the mirror. *)
Theorem participant_operations_leave_finance
  (now id : string) (form : ParticipantForm) (confirmed : bool) (st : State) :
  sameFinance st (fst (addParticipant now form st))
  /\ sameFinance st (fst (removeParticipant confirmed id st))
  /\ sameFinance st (fst (markParticipantCompleted now id st))
  /\ sameFinance st (fst (addTestParticipant now st)).
Proof.
  split; [|split; [|split]].
  - destruct (addParticipant_cases now form st) as [[E _]|[p [E _]]]; rewrite E;
      [apply sameFinance_refl|repeat split].
  - unfold removeParticipant. destruct confirmed; cbn [negb fst];
      [|apply sameFinance_refl].
    destruct (Nat.eqb _ _); cbn [fst]; [apply sameFinance_refl|repeat split].
  - unfold markParticipantCompleted.
    destruct (completeFirst now id (getParticipants st)) as [[f r]|]; cbn [fst];
      [repeat split|apply sameFinance_refl].
  - repeat split.
Qed.

(** X15.  [addBudgetItem], [removeBudgetItem] and [addExpense] never change
    the participants; the first two leave the stored expenses and the last
    the stored budget items as they were. *)
Theorem finance_operations_leave_participants
  (formatCurrency : float -> string) (now : string)
  (bform : BudgetForm) (eform : ExpenseForm)
  (confirmed : bool) (index : Z) (st : State) :
  sameParticipants st (fst (addBudgetItem now bform st))
  /\ getExpenses (fst (addBudgetItem now bform st)) = getExpenses st
  /\ sameParticipants st (fst (removeBudgetItem confirmed index st))
  /\ getExpenses (fst (removeBudgetItem confirmed index st)) = getExpenses st
  /\ sameParticipants st (fst (addExpense formatCurrency now eform st))
  /\ getBudgetItems (fst (addExpense formatCurrency now eform st))
     = getBudgetItems st.
Proof.
  split; [|split; [|split; [|split; [|split]]]].
  - unfold addBudgetItem. cbv zeta.
    repeat match goal with |- context [if ?b then _ else _] => destruct b end;
      repeat split.
  - unfold addBudgetItem. cbv zeta.
    repeat match goal with |- context [if ?b then _ else _] => destruct b end;
      reflexivity.
  - unfold removeBudgetItem.
    repeat match goal with |- context [if ?b then _ else _] => destruct b end;
      repeat split.
  - unfold removeBudgetItem.
    repeat match goal with |- context [if ?b then _ else _] => destruct b end;
      reflexivity.
  - unfold addExpense. cbv zeta.
    repeat match goal with |- context [if ?b then _ else _] => destruct b end;
      repeat split.
  - unfold addExpense. cbv zeta.
    repeat match goal with |- context [if ?b then _ else _] => destruct b end;
      reflexivity.
Qed.

(** ** Expenses *)



Lemma addExpense_error_changes_nothing
  (formatCurrency : float -> string) (now : string) (form : ExpenseForm)
  (st : State) :
  n_type (snd (addExpense formatCurrency now form st)) = error ->
  fst (addExpense formatCurrency now form st) = st.
Proof.
  unfold addExpense. cbv zeta.
  repeat match goal with
         | |- context [if ?b then _ else _] => destruct b
         end; cbn [fst snd n_type showNotification]; intros H;
    try reflexivity; discriminate H.
Qed.

(** ** Budget categories stay distinct *)

Lemma existsb_category_false (category : string) (bs : list BudgetItem) :
  existsb (fun item => String.eqb (toLowerCase (b_category item))
                                  (toLowerCase category)) bs = false ->
  ~ In (toLowerCase category) (map (fun b => toLowerCase (b_category b)) bs).
Proof.
  intros H Hin. apply in_map_iff in Hin. destruct Hin as [b [E Hb]].
  assert (existsb (fun item => String.eqb (toLowerCase (b_category item))
                                          (toLowerCase category)) bs = true).
  { apply existsb_exists. exists b. split; [exact Hb|]. rewrite E. apply String.eqb_refl. }
  congruence.
Qed.

(** X17.  [addBudgetItem] keeps the categories of the stored budget items
    pairwise different, letter case ignored. *)
Theorem addBudgetItem_keeps_categories_distinct
  (now : string) (form : BudgetForm) (st : State) :
  NoDup (map (fun b => toLowerCase (b_category b)) (getBudgetItems st)) ->
  NoDup (map (fun b => toLowerCase (b_category b))
             (getBudgetItems (fst (addBudgetItem now form st)))).
Proof.
  intros H. unfold addBudgetItem. cbv zeta.
  destruct (_ || _); [exact H|].
  destruct (existsb _ _) eqn:E; [exact H|].
  apply existsb_category_false in E. cbn [fst].
  change (getBudgetItems (saveBudgetItems ?l st)) with (map json_budgetItem l).
  rewrite map_map. cbn [json_budgetItem b_category].
  rewrite map_app. cbn [map b_category].
  apply NoDup_app; [exact H| repeat constructor; intros [] | ].
  intros c Hc [<-|[]]. exact (E Hc).
Qed.

(** ** The participant report *)

Lemma csvRow_without_updatedAt (q : Participant) :
  csvRow (Object_keys (participantObject (withoutUpdatedAt q)))
         (participantObject q)
  = csvRow (Object_keys (participantObject (withoutUpdatedAt q)))
           (participantObject (withoutUpdatedAt q)).
Proof.
  unfold participantObject, withoutUpdatedAt. cbn [p_updatedAt p_id p_name p_email p_phone
    p_programme p_startDate p_progress p_status p_notes p_attendance p_revenue
    p_jobs p_createdAt].
  destruct (p_updatedAt q); reflexivity.
Qed.

Lemma keys_without_updatedAt (p q : Participant) :
  p_updatedAt p = None ->
  Object_keys (participantObject p)
  = Object_keys (participantObject (withoutUpdatedAt q)).
Proof. intros H. unfold participantObject. rewrite H. reflexivity. Qed.

Lemma csvContent_without_updatedAt (p : Participant) (ps : list Participant) :
  p_updatedAt p = None ->
  csvContent (map participantObject (p :: ps))
  = csvContent (map participantObject (map withoutUpdatedAt (p :: ps))).
Proof.
  intros Hp.
  assert (Ep : withoutUpdatedAt p = p).
  { destruct p; cbn in Hp; subst; reflexivity. }
  cbn [map csvContent]. rewrite Ep. f_equal. f_equal. f_equal.
  rewrite !map_map. apply map_ext. intros q.
  rewrite (keys_without_updatedAt p q Hp). apply csvRow_without_updatedAt.
Qed.

(** X18.  The participant report takes its columns from the first
    participant: when that one has no update time, the file is the one
    obtained if no participant had an update time. *)
Theorem generateReport_columns_of_first_participant
  (now : string) (type : option string) (st st' : State)
  (p : Participant) (ps : list Participant) :
  getParticipants st = p :: ps ->
  p_updatedAt p = None ->
  getParticipants st' = map withoutUpdatedAt (p :: ps) ->
  generateReport now type st = generateReport now type st'.
Proof.
  intros H Hp H'. unfold generateReport. cbv zeta. rewrite H, H'.
  unfold downloadCSV. cbn [map].
  change (participantObject p :: map participantObject ps)
    with (map participantObject (p :: ps)).
  change (participantObject (withoutUpdatedAt p)
          :: map participantObject (map withoutUpdatedAt ps))
    with (map participantObject (map withoutUpdatedAt (p :: ps))).
  rewrite (csvContent_without_updatedAt p ps Hp). reflexivity.
Qed.

Lemma generateReport_columns_of_first_participant_witness :
  generateReport sampleNow None
    (fst (markParticipantCompleted sampleNow "P002"
            (stateOfParticipants (cohort 0 2))))
  = generateReport sampleNow None
      (stateOfParticipants
         [cohortMember 0 1; withoutUpdatedAt (completedAt sampleNow (cohortMember 0 2))]).
Proof.
  apply (generateReport_columns_of_first_participant sampleNow None _ _
           (cohortMember 0 1) [completedAt sampleNow (cohortMember 0 2)]).
  - reflexivity.
  - reflexivity.
  - reflexivity.
Defined.

(** ** The monthly report *)

Lemma is_zero_Prim2SF (x : float) :
  is_zero x = true -> exists s, Prim2SF x = S754_zero s.
Proof.
  unfold is_zero. rewrite eqb_spec. change (Prim2SF zero) with (S754_zero false).
  unfold SFeqb, SFcompare.
  destruct (Prim2SF x) as [s|s| |s m e]; try destruct s; cbn; try discriminate;
    intros _; eexists; reflexivity.
Qed.

Lemma percent_of_division_by_zero (spent z : float) :
  is_zero z = true ->
  let u := Number_toString (Math_round ((spent / z) * 100)%float) in
  u = "Infinity" \/ u = "-Infinity" \/ u = "NaN".
Proof.
  intros Hz. destruct (is_zero_Prim2SF z Hz) as [sz Ez]. cbv zeta.
  assert (Hq : Prim2SF ((spent / z) * 100)%float = S754_nan
               \/ exists s, Prim2SF ((spent / z) * 100)%float = S754_infinity s).
  { rewrite mul_spec, div_spec, Ez.
    change (Prim2SF 100) with (S754_finite false 7036874417766400 (-46)).
    unfold SF64mul, SF64div, SFmul, SFdiv.
    destruct (Prim2SF spent) as [s|s| |s m e]; [left|right|left|right];
      try reflexivity; eexists; reflexivity. }
  unfold Math_round, Number_toString.
  destruct Hq as [Hq|[s Hq]]; rewrite Hq; cbv iota; rewrite Hq.
  - right. right. reflexivity.
  - destruct s; [right; left|left]; reflexivity.
Qed.

(** X19.  For a budget item whose amount is 0, -0 or null, whatever the
    expenses, the utilisation in the monthly report is [Infinity%],
    [-Infinity%] or [NaN%]. *)
Theorem reportRow_zero_budget_has_no_percentage
  (expenses : list Expense) (item : BudgetItem) :
  is_zero (toNumber (b_amount item)) = true ->
  In (getProp (reportRow expenses item) "Utilization")
     [VStr "Infinity%"; VStr "-Infinity%"; VStr "NaN%"].
Proof.
  intros Hz. unfold reportRow. cbv zeta.
  cbn [getProp String.eqb Ascii.eqb Bool.eqb].
  match goal with
  | |- In (VStr (Number_toString (Math_round ((?s / ?z) * 100)%float) ++ "%")) _ =>
      destruct (percent_of_division_by_zero s z Hz) as [E|[E|E]]; rewrite E
  end; cbn; auto.
Qed.

Lemma reportRow_zero_budget_has_no_percentage_witness :
  In (getProp (reportRow [] (sampleBudgetItem "Venue" 0)) "Utilization")
     [VStr "Infinity%"; VStr "-Infinity%"; VStr "NaN%"].
Proof.
  apply (reportRow_zero_budget_has_no_percentage [] (sampleBudgetItem "Venue" 0)).
  reflexivity.
Defined.



(** ** The forecast and the ROI analysis *)

(** X21.  The forecast always gives a file, and with no expense its average
    and its projected burn are [0.00]. *)
Theorem forecast_average_is_guarded (now : string) (st : State) :
  x_file (generateForecastReport now st) <> None
  /\ (getExpenses st = [] ->
      metricValue "Average Expense" (forecastData st) = VStr "0.00"
      /\ metricValue "Projected Monthly Burn" (forecastData st) = VStr "0.00").
Proof.
  split; [discriminate|].
  intros H. unfold forecastData. cbv zeta. rewrite H. split; reflexivity.
Qed.

Lemma forecast_average_is_guarded_witness :
  metricValue "Average Expense"
    (forecastData (stateOfBudget [sampleBudgetItem "Training" 1000] []))
  = VStr "0.00".
Proof.
  apply (proj2 (forecast_average_is_guarded
                  sampleNow (stateOfBudget [sampleBudgetItem "Training" 1000] []))).
  reflexivity.
Defined.

(** X22.  The ROI analysis always gives a file; with no budget item the ROI
    percentage is [N/A]; with no participant the two per-participant values
    are the number 0, which the CSV writes as an empty cell. *)
Theorem roi_divisions_are_guarded (now : string) (st : State) :
  x_file (generateROIReport now st) <> None
  /\ (getBudgetItems st = [] ->
      metricValue "ROI Percentage" (roiData st) = VStr "N/A")
  /\ (getParticipants st = [] ->
      metricValue "Revenue per Participant" (roiData st) = VNum zero
      /\ metricValue "Jobs per Participant" (roiData st) = VNum zero
      /\ csvCell (metric "Revenue per Participant"
                    (metricValue "Revenue per Participant" (roiData st))) "Value"
         = VStr EmptyString).
Proof.
  split; [discriminate|split].
  - intros H. unfold roiData. cbv zeta. rewrite H. reflexivity.
  - intros H. unfold roiData. cbv zeta. rewrite H. repeat split.
Qed.

Lemma roi_divisions_are_guarded_witness :
  metricValue "ROI Percentage"
    (roiData (stateOfParticipants (cohort 1 2))) = VStr "N/A".
Proof.
  apply (proj1 (proj2 (roi_divisions_are_guarded
                         sampleNow (stateOfParticipants (cohort 1 2))))).
  reflexivity.
Defined.

(** ** Counting programmes *)

Lemma existsb_eqb_In (v : string) (set : list string) :
  existsb (String.eqb v) set = true <-> In v set.
Proof.
  rewrite existsb_exists. split.
  - intros [x [H E]]. apply String.eqb_eq in E. subst. exact H.
  - intros H. exists v. split; [exact H|apply String.eqb_refl].
Qed.

Lemma setAdd_spec (set : list string) (v : string) :
  NoDup set ->
  NoDup (setAdd set v) /\ (forall x, In x (setAdd set v) <-> In x set \/ x = v).
Proof.
  intros H. unfold setAdd. destruct (existsb (String.eqb v) set) eqn:E.
  - apply existsb_eqb_In in E. split; [exact H|].
    intros x. split; [auto|]. intros [Hx| ->]; assumption.
  - assert (Hn : ~ In v set).
    { intros Hin. apply existsb_eqb_In in Hin. congruence. }
    split.
    + apply NoDup_app; [exact H|repeat constructor; intros []|].
      intros x Hx [<-|[]]. exact (Hn Hx).
    + intros x. rewrite in_app_iff. cbn [In]. split.
      * intros [Hx|[<-|[]]]; auto.
      * intros [Hx| ->]; auto.
Qed.

Lemma fold_setAdd_spec (values set : list string) :
  NoDup set ->
  NoDup (fold_left setAdd values set)
  /\ (forall x, In x (fold_left setAdd values set) <-> In x set \/ In x values).
Proof.
  revert set. induction values as [|v values IH]; intros set H; cbn [fold_left].
  - split; [exact H|]. intros x. cbn [In]. tauto.
  - destruct (setAdd_spec set v H) as [N S].
    destruct (IH (setAdd set v) N) as [N' S']. split; [exact N'|].
    intros x. rewrite S', S. cbn [In]. split.
    + intros [[Hx| ->]|Hx]; auto.
    + intros [Hx|[<-|Hx]]; auto.
Qed.

Lemma Set_size_distinct (values : list string) :
  Set_size values = List.length (nodup string_dec values)
  /\ (Set_size values <= List.length values)%nat.
Proof.
  unfold Set_size. change (fun set v => if existsb (String.eqb v) set then set
                                         else (set ++ [v])%list) with setAdd.
  destruct (fold_setAdd_spec values [] (NoDup_nil _)) as [N S].
  assert (P : Permutation (fold_left setAdd values []) (nodup string_dec values)).
  { apply NoDup_Permutation; [exact N|apply NoDup_nodup|].
    intros x. rewrite S, nodup_In. cbn [In]. tauto. }
  split.
  - apply Permutation_length, P.
  - apply NoDup_incl_length; [exact N|]. intros x Hx. apply S in Hx.
    destruct Hx as [[]|Hx]. exact Hx.
Qed.

(** X23.  [updateAllStats] shows the number of participants, the number of
    distinct programme names among them (never more than the participants)
    and the success rate. *)
Theorem updateAllStats_counts_distinct_programmes (st : State) :
  let '(total, programs, rate) := updateAllStats st in
  total = List.length (getParticipants st)
  /\ programs
     = List.length (nodup string_dec (map p_programme (getParticipants st)))
  /\ (programs <= total)%nat
  /\ rate = calculateSuccessRate st.
Proof.
  unfold updateAllStats. cbv zeta.
  destruct (Set_size_distinct (map p_programme (getParticipants st))) as [E L].
  rewrite length_map in L. repeat split; assumption.
Qed.

(** ** Completion and the success count *)






(** X2.  Whenever [addParticipant], [addBudgetItem] or [addExpense] ends
    with an error notification, the store, the mirror and the page are
    exactly as before. *)
Theorem validation_errors_change_nothing :
  (forall now form st,
      n_type (snd (addParticipant now form st)) = error ->
      fst (addParticipant now form st) = st)
  /\ (forall now form st,
      n_type (snd (addBudgetItem now form st)) = error ->
      fst (addBudgetItem now form st) = st)
  /\ (forall formatCurrency now form st,
      n_type (snd (addExpense formatCurrency now form st)) = error ->
      fst (addExpense formatCurrency now form st) = st).
Proof.
  split; [|split].
  - exact addParticipant_error_changes_nothing.
  - exact addBudgetItem_error_changes_nothing.
  - exact addExpense_error_changes_nothing.
Qed.

Lemma validation_errors_change_nothing_witness :
  fst (addParticipant sampleNow (sampleForm "Sipho" "not-an-email")
         (stateOfParticipants (cohort 1 2)))
  = stateOfParticipants (cohort 1 2).
Proof.
  apply (proj1 validation_errors_change_nothing sampleNow
           (sampleForm "Sipho" "not-an-email")
           (stateOfParticipants (cohort 1 2))).
  reflexivity.
Defined.

Lemma addParticipant_keeps_emails_distinct_witness :
  NoDup (map p_email
           (getParticipants
              (fst (addParticipant sampleNow
                      (sampleForm "Sipho" "sipho@example.org")
                      (stateOfParticipants (cohort 1 2)))))).
Proof.
  apply (addParticipant_keeps_emails_distinct sampleNow
           (sampleForm "Sipho" "sipho@example.org")
           (stateOfParticipants (cohort 1 2))).
  vm_compute. repeat constructor; cbn; intuition discriminate.
Defined.

Lemma addParticipant_keeps_ids_distinct_witness :
  NoDup (map p_id
           (getParticipants
              (fst (addParticipant sampleNow
                      (sampleForm "Sipho" "sipho@example.org")
                      (stateOfParticipants (cohort 1 2)))))).
Proof.
  apply (addParticipant_keeps_ids_distinct sampleNow
           (sampleForm "Sipho" "sipho@example.org")
           (stateOfParticipants (cohort 1 2))).
  - repeat constructor; vm_compute; reflexivity.
  - vm_compute. repeat constructor; cbn; intuition discriminate.
Defined.

Lemma addBudgetItem_keeps_categories_distinct_witness :
  NoDup (map (fun b => toLowerCase (b_category b))
           (getBudgetItems
              (fst (addBudgetItem sampleNow (sampleBudgetForm "TRAVEL" "75")
                      threeBudgetItems)))).
Proof.
  apply (addBudgetItem_keeps_categories_distinct sampleNow
           (sampleBudgetForm "TRAVEL" "75") threeBudgetItems).
  vm_compute. repeat constructor; cbn; intuition discriminate.
Defined.

Lemma isValidEmail_shape_witness : isValidEmail "thandi@example.org" = true.
Proof.
  apply (proj2 (isValidEmail_shape "thandi@example.org")).
  exists "thandi", "example", "org". repeat split; discriminate.
Defined.

